(** * The NCBI Nucleotide agent: search and record-fetch entry points

    A shallow embedding of [src/entrypoints/find_sequence_records.py] and
    [src/entrypoints/get_sequence_record.py].

    - Python values coming out of [xmltodict.parse] are the inductive [pyval]
      (None, str, list, dict); a dict is an association list in document
      order.
    - A call that may raise is an [outcome]; the two [run] coroutines, which
      also talk to the host (log, artifact, reply) and to the HTTP client,
      live in the writer-and-exception monad [M]: the list of [event]s
      emitted so far, and how the call ended.
    - The third-party functions the entry points call ([httpx] GET,
      [xmltodict.parse], [repr], [json.dumps]) are the fields of a
      [Libraries] record; what [SearchResults] inherits from pydantic is the
      record [BaseModel]. The entry points take both as arguments.
    - A Python [str] is a [string], one [ascii] per character. *)

From Stdlib Require Import String Ascii List Bool ZArith Arith Lia DecimalString.
From Stdlib.Strings Require Import Byte.
Import ListNotations.
Set Warnings "-register-all".
Open Scope string_scope.
Open Scope nat_scope.

(** ** Strings *)

(** The one-character string holding a double quote. *)
Definition dquote : string := String (ascii_of_nat 34) EmptyString.

(** [s.replace(old, new)] for one-character [old] and [new]. *)
Fixpoint replace (old new : ascii) (s : string) : string :=
  match s with
  | EmptyString => EmptyString
  | String c s' => String (if Ascii.eqb c old then new else c) (replace old new s')
  end.

(** [str(n)] for an [int]. *)
Definition str_of_int (z : Z) : string := NilZero.string_of_int (Z.to_int z).

(** [needle in s]. *)
Fixpoint contains (needle s : string) : bool :=
  String.prefix needle s
  || match s with
     | EmptyString => false
     | String _ s' => contains needle s'
     end.

(** [s.encode("utf-8")], for characters below U+0100. *)
Definition utf8_encode_char (c : ascii) : list byte :=
  let n := nat_of_ascii c in
  if n <? 128 then [byte_of_ascii c]
  else [byte_of_ascii (ascii_of_nat (192 + n / 64));
        byte_of_ascii (ascii_of_nat (128 + n mod 64))].

Definition utf8_encode (s : string) : list byte :=
  flat_map utf8_encode_char (list_ascii_of_string s).

(** ** Python values *)

Inductive pyval : Type :=
| PNone
| PStr (s : string)
| PList (items : list pyval)
| PDict (entries : list (string * pyval)).

Definition dict : Type := list (string * pyval).

(** [bool(v)]: None, the empty string, the empty list and the empty dict are
    false. *)
Definition truthy (v : pyval) : bool :=
  match v with
  | PNone => false
  | PStr s => negb (String.eqb s "")
  | PList l => negb (Nat.eqb (List.length l) 0)
  | PDict d => negb (Nat.eqb (List.length d) 0)
  end.

Definition type_name (v : pyval) : string :=
  match v with
  | PNone => "NoneType"
  | PStr _ => "str"
  | PList _ => "list"
  | PDict _ => "dict"
  end.

(** [d.get(key)] on a dict, as an option: [None] when the key is absent. *)
Fixpoint lookup (key : string) (d : dict) : option pyval :=
  match d with
  | [] => None
  | (k, v) :: d' => if String.eqb k key then Some v else lookup key d'
  end.

(** ** Exceptions *)

Inductive exc_class : Type :=
| Exception
| ValueError
| DefusedXmlException
| ValidationError
| ExpatError
| AttributeError
| TypeError
| KeyError
| UnboundLocalError
| TransportError.

(** The nearest base class among the classes above:
    [defusedxml.DefusedXmlException] and [pydantic_core.ValidationError]
    derive from [ValueError]; [xml.parsers.expat.ExpatError] derives from
    [Exception] directly. *)
Definition base (c : exc_class) : option exc_class :=
  match c with
  | Exception => None
  | DefusedXmlException | ValidationError => Some ValueError
  | _ => Some Exception
  end.

Definition exc_class_eqb (c d : exc_class) : bool :=
  match c, d with
  | Exception, Exception | ValueError, ValueError
  | DefusedXmlException, DefusedXmlException
  | ValidationError, ValidationError | ExpatError, ExpatError
  | AttributeError, AttributeError | TypeError, TypeError
  | KeyError, KeyError | UnboundLocalError, UnboundLocalError
  | TransportError, TransportError => true
  | _, _ => false
  end.

(** [issubclass(c, d)]; the hierarchy is two levels deep. *)
Definition issubclass (c d : exc_class) : bool :=
  exc_class_eqb c d
  || match base c with
     | None => false
     | Some b =>
         exc_class_eqb b d
         || match base b with
            | None => false
            | Some b' => exc_class_eqb b' d
            end
     end.

(** A raised exception: its class and [str(e)]. *)
Record exn : Type := Exn { exn_class : exc_class; exn_str : string }.

(** [isinstance(e, c)], what an [except c] clause tests. *)
Definition isinstance (e : exn) (c : exc_class) : bool :=
  issubclass (exn_class e) c.

Inductive outcome (A : Type) : Type :=
| Returns (a : A)
| Raises (e : exn).
Arguments Returns {A} a.
Arguments Raises {A} e.

Definition obind {A B : Type} (o : outcome A) (k : A -> outcome B) : outcome B :=
  match o with
  | Returns a => k a
  | Raises e => Raises e
  end.

Notation "'let!' x ':=' o 'in' k" := (obind o (fun x => k))
  (at level 10, x name, o at level 100, k at level 200).

(** [v.get(key)] on any value: only a dict has the method. *)
Definition py_get (v : pyval) (key : string) : outcome pyval :=
  match v with
  | PDict d => Returns (match lookup key d with Some x => x | None => PNone end)
  | _ => Raises (Exn AttributeError
                   ("'" ++ type_name v ++ "' object has no attribute 'get'"))
  end.

(** ** [int(s)] on a string *)

(** The characters [int] skips around the literal. *)
Definition is_space (c : ascii) : bool :=
  let n := nat_of_ascii c in
  ((9 <=? n) && (n <=? 13)) || (n =? 32) || (n =? 133) || (n =? 160).

Definition digit_of (c : ascii) : option Z :=
  let n := nat_of_ascii c in
  if (48 <=? n) && (n <=? 57) then Some (Z.of_nat (n - 48)) else None.

Fixpoint drop_spaces (l : list ascii) : list ascii :=
  match l with
  | c :: l' => if is_space c then drop_spaces l' else l
  | [] => []
  end.

Definition strip (l : list ascii) : list ascii :=
  rev (drop_spaces (rev (drop_spaces l))).

(** Decimal digits, single underscores allowed between two digits. The
    result is the value and the number of digits read. *)
Fixpoint parse_digits (after_digit : bool) (acc : Z) (n : nat) (l : list ascii)
  : option (Z * nat) :=
  match l with
  | [] => if after_digit then Some (acc, n) else None
  | c :: l' =>
      match digit_of c with
      | Some d => parse_digits true (10 * acc + d)%Z (S n) l'
      | None =>
          if Ascii.eqb c "_" && after_digit then parse_digits false acc n l'
          else None
      end
  end.

Definition parse_literal (s : string) : option (Z * nat) :=
  match strip (list_ascii_of_string s) with
  | "-"%char :: l =>
      match parse_digits false 0%Z 0 l with
      | Some (z, n) => Some (Z.opp z, n)
      | None => None
      end
  | "+"%char :: l => parse_digits false 0%Z 0 l
  | l => parse_digits false 0%Z 0 l
  end.

(** The interpreter's limit on the digits of an integer literal read from a
    string. *)
Definition max_str_digits : nat := 4300.

(** The integer [int(s)] returns, when it returns one. *)
Definition int_of_str (s : string) : option Z :=
  match parse_literal s with
  | Some (z, n) => if n <=? max_str_digits then Some z else None
  | None => None
  end.

(** [d.get(key)] on a dict: [None] (the Python value) when the key is
    absent. *)
Definition dict_get (d : dict) (key : string) : pyval :=
  match lookup key d with
  | Some v => v
  | None => PNone
  end.

(** [len(v)]. *)
Definition py_len (v : pyval) : outcome nat :=
  match v with
  | PStr s => Returns (String.length s)
  | PList l => Returns (List.length l)
  | PDict d => Returns (List.length d)
  | PNone => Raises (Exn TypeError "object of type 'NoneType' has no len()")
  end.

(** [v[:n]]. A dict looks the slice up as a key. *)
Definition py_slice_to (n : nat) (v : pyval) : outcome pyval :=
  match v with
  | PStr s => Returns (PStr (String.substring 0 n s))
  | PList l => Returns (PList (firstn n l))
  | PDict _ =>
      Raises (Exn KeyError ("slice(None, " ++ str_of_int (Z.of_nat n) ++ ", None)"))
  | PNone => Raises (Exn TypeError "'NoneType' object is not subscriptable")
  end.

(** [v + s] for a string [s]. *)
Definition py_add_str (v : pyval) (s : string) : outcome pyval :=
  match v with
  | PStr s0 => Returns (PStr (s0 ++ s))
  | PList _ =>
      Raises (Exn TypeError
                ("can only concatenate list (not " ++ dquote ++ "str" ++ dquote
                 ++ ") to list"))
  | _ =>
      Raises (Exn TypeError
                ("unsupported operand type(s) for +: '" ++ type_name v
                 ++ "' and 'str'"))
  end.

(** ** The host and the HTTP client *)

Record response : Type := { status_code : Z; text : string }.

(** [httpx.Response.is_success]: a 2xx status. *)
Definition is_success (r : response) : bool :=
  (200 <=? status_code r)%Z && (status_code r <=? 299)%Z.

(** A value of an artifact's metadata dict: a value as above, or a set of
    strings. *)
Inductive meta : Type :=
| MVal (v : pyval)
| MSet (items : list string).

Record artifact : Type := {
  mimetype : string;
  description : string;
  content : option (list byte);
  uris : option (list string);
  metadata : list (string * meta)
}.

(** What a call of an entry point does that its caller or the network can
    observe, in order. *)
Inductive event : Type :=
| BeginProcess (summary : string)
| Log (message : string)
| HttpGet (url : string)
| CreateArtifact (a : artifact)
| Reply (message : string).

(** The third-party functions the entry points call. *)
Record Libraries : Type := {
  (** [httpx.AsyncClient(follow_redirects=True).get(url)] *)
  http_get : string -> outcome response;
  (** [xmltodict.parse(xml)]: a dict with the root tag as its one key. *)
  xmltodict_parse : string -> outcome dict;
  (** [repr(v)] *)
  repr : pyval -> string;
  (** [json.dumps(v)] *)
  json_dumps : pyval -> string
}.

(** A computation of an entry point: the events emitted, and how it ended. *)
Definition M (A : Type) : Type := list event * outcome A.

Definition ret {A : Type} (a : A) : M A := ([], Returns a).

Definition raise {A : Type} (e : exn) : M A := ([], Raises e).

Definition bind {A B : Type} (m : M A) (k : A -> M B) : M B :=
  match m with
  | (t, Returns a) => let (t', r) := k a in ((t ++ t')%list, r)
  | (t, Raises e) => (t, Raises e)
  end.

Definition emit (e : event) : M unit := ([e], Returns tt).

Definition lift {A : Type} (o : outcome A) : M A := ([], o).

Notation "x <- m ;; k" := (bind m (fun x => k))
  (at level 61, m at next level, right associativity).
Notation "m ;; k" := (bind m (fun _ => k))
  (at level 61, right associativity).

Definition begin_process (summary : string) : M unit := emit (BeginProcess summary).
Definition log (message : string) : M unit := emit (Log message).
Definition reply (message : string) : M unit := emit (Reply message).
Definition create_artifact (a : artifact) : M unit := emit (CreateArtifact a).

(** [when c: m]: an [if] without [else]. *)
Definition when (c : bool) (m : M unit) : M unit := if c then m else ret tt.

(** Observations on a trace. *)
Definition artifacts (t : list event) : list artifact :=
  flat_map (fun e => match e with CreateArtifact a => [a] | _ => [] end) t.

Definition replies (t : list event) : list string :=
  flat_map (fun e => match e with Reply s => [s] | _ => [] end) t.

Definition logs (t : list event) : list string :=
  flat_map (fun e => match e with Log s => [s] | _ => [] end) t.

Definition requests (t : list event) : list string :=
  flat_map (fun e => match e with HttpGet u => [u] | _ => [] end) t.

Section Builtins.
Variable L : Libraries.

(** [str(v)], what an f-string puts in place of [{v}]. *)
Definition py_str (v : pyval) : string :=
  match v with
  | PStr s => s
  | PNone => "None"
  | _ => repr L v
  end.

(** [int(v)]: the value, and the class of the exception otherwise. The
    message of a [ValueError] is CPython's for a literal of at most 200
    characters whose digits stay within the limit. *)
Definition py_int (v : pyval) : outcome Z :=
  match v with
  | PStr s =>
      match parse_literal s with
      | Some (z, n) =>
          if n <=? max_str_digits then Returns z
          else Raises (Exn ValueError
                         ("Exceeds the limit (4300 digits) for integer string conversion: value has "
                          ++ str_of_int (Z.of_nat n)
                          ++ " digits; use sys.set_int_max_str_digits() to increase the limit"))
      | None =>
          Raises (Exn ValueError
                    ("invalid literal for int() with base 10: " ++ repr L (PStr s)))
      end
  | _ =>
      Raises (Exn TypeError
                ("int() argument must be a string, a bytes-like object or a real number, not '"
                 ++ type_name v ++ "'"))
  end.

(** [await http.get(url)]: the request goes out, then the client returns a
    response or raises. *)
Definition get (url : string) : M response := ([HttpGet url], http_get L url).
End Builtins.

(** ** [xml.etree.ElementTree] and the host's types *)

Definition newline : string := String (ascii_of_nat 10) EmptyString.

Module ElementTree.

(** An element: its tag, its text ([None] when it has none) and its child
    elements. A tree is its root element. *)
Inductive Element : Type :=
| Elem (tag : string) (text : option string) (children : list Element).

Definition tag (e : Element) : string := match e with Elem t _ _ => t end.
Definition text (e : Element) : option string := match e with Elem _ x _ => x end.
Definition children (e : Element) : list Element := match e with Elem _ _ cs => cs end.

(** [bool(e)]: an element is true when it has children. *)
Definition truthy (e : Element) : bool := negb (Nat.eqb (List.length (children e)) 0).

(** [list(e.iter(tag))]: the element and its descendants that bear the tag,
    in document order; the tag ["*"] stands for every tag. *)
Fixpoint iter (tag : string) (e : Element) : list Element :=
  match e with
  | Elem t _ cs =>
      ((if String.eqb tag "*" || String.eqb t tag then [e] else [])
       ++ flat_map (iter tag) cs)%list
  end.

End ElementTree.

Module AgentEntrypoint.

(** The two classes named [Parameters]. *)
Inductive parameters_class : Type :=
| SearchParameters
| RecordParameters.

Record t : Type := {
  id : string;
  description : string;
  parameters : parameters_class
}.

End AgentEntrypoint.

Module AgentCard.

Record t : Type := {
  name : string;
  description : string;
  icon : option string;
  entrypoints : list AgentEntrypoint.t
}.

End AgentCard.

(** ** [entrypoints/find_sequence_records.py] *)

Module find_sequence_records.

Record Parameters : Type := { search_terms : string }.

Record SearchResults : Type := {
  count : Z;
  page : Z;
  page_size : Z;
  sequence_ids : list string;
  errors : list string;
  warnings : list string
}.

(** What [SearchResults] inherits from pydantic's [BaseModel]: the JSON
    serializer, and the text of the error raised when a field fails
    validation. *)
Record BaseModel : Type := {
  model_dump_json : SearchResults -> string;
  validation_error_str : list pyval -> string
}.

(** Validation of a [list[str]] field: every item has to be a string. *)
Fixpoint all_str (l : list pyval) : option (list string) :=
  match l with
  | [] => Some []
  | PStr s :: l' =>
      match all_str l' with
      | Some ss => Some (s :: ss)
      | None => None
      end
  | _ :: _ => None
  end.

Section Entrypoint.
Variable L : Libraries.
Variable B : BaseModel.

(** [SearchResults(count=..., page=..., page_size=..., errors=...,
    warnings=...)]; [errors] is a list of strings already, [warnings]
    holds whatever the parsed document had. *)
Definition SearchResults_init (count page page_size : Z)
    (errors : list string) (warnings : list pyval) : outcome SearchResults :=
  match all_str warnings with
  | Some ws =>
      Returns {| count := count; page := page; page_size := page_size;
                 sequence_ids := []; errors := errors; warnings := ws |}
  | None => Raises (Exn ValidationError (validation_error_str B warnings))
  end.

(** Lines 101-107 of [_parse_search_results]: the list [errors]. *)
Definition errors_of (data : pyval) : outcome (list string) :=
  let! error_list := py_get data "ErrorList" in
  if truthy error_list then
    let! phrase_not_found := py_get error_list "PhraseNotFound" in
    if truthy phrase_not_found then
      let! n := py_len phrase_not_found in
      let! phrase :=
        (if n <=? 100 then Returns phrase_not_found
         else let! head := py_slice_to 100 phrase_not_found in
              py_add_str head "...") in
      Returns ["Phrase not found: " ++ py_str L phrase]
    else Returns []
  else Returns [].

(** Lines 109-114: the list [warnings]. *)
Definition warnings_of (data : pyval) : outcome (list pyval) :=
  let! warning_list := py_get data "WarningList" in
  if truthy warning_list then
    let! output_message := py_get warning_list "OutputMessage" in
    if truthy output_message then Returns [output_message] else Returns []
  else Returns [].

(** [int(data.get(key, 0))]. *)
Definition int_field (data : pyval) (key : string) : outcome Z :=
  match data with
  | PDict d =>
      match lookup key d with
      | Some v => py_int L v
      | None => Returns 0%Z
      end
  | _ => Raises (Exn AttributeError
                   ("'" ++ type_name data ++ "' object has no attribute 'get'"))
  end.

Definition missing_root : exn :=
  Exn ValueError "Invalid response from NCBI: missing eSearchResult element".

Definition _parse_search_results (xml : string) : outcome SearchResults :=
  let! parsed := xmltodict_parse L xml in
  let data := dict_get parsed "eSearchResult" in
  if negb (truthy data) then Raises missing_root
  else
    let! errors := errors_of data in
    let! warnings := warnings_of data in
    let! count := int_field data "Count" in
    let! page := int_field data "RetStart" in
    let! page_size := int_field data "RetMax" in
    SearchResults_init count page page_size errors warnings.

Definition search_url (parameters : Parameters) : string :=
  "https://eutils.ncbi.nlm.nih.gov/entrez/eutils/esearch.fcgi?db=nuccore&term="
  ++ search_terms parameters.

Definition advisory : string :=
  "The search failed with the error: 'Phrase not found'. This means the search terms did not match any indexed metadata fields. "
  ++ "The agent's capabilities are limited to: (1) find_sequence_records - searches text metadata like organism names, titles, and authors; "
  ++ "(2) get_sequence_record - retrieves a record by known accession number.".

(** Lines 59-82 of [run]: what follows the [async with] block of the
    HTTP client, once [results] is bound. *)
Definition report (parameters : Parameters) (results : SearchResults) : M unit :=
  when (count results =? 0)%Z
    (log "No matching records found in the NCBI Nucleotide database." ;;
     when (negb (Nat.eqb (List.length (errors results)) 0))
       (log ("NCBI reported: " ++ String.concat ", " (errors results))) ;;
     when (negb (Nat.eqb (List.length (warnings results)) 0))
       (log ("Note: " ++ String.concat ", " (warnings results)))) ;;
  create_artifact
    {| mimetype := "application/json";
       description := "Nucleotide IDs for sequence records matching "
                      ++ dquote ++ search_terms parameters ++ dquote;
       content := Some (utf8_encode (model_dump_json B results));
       uris := None;
       metadata := [("data_source", MVal (PStr "Nucleotide database"));
                    ("api_search_terms", MSet [search_terms parameters]);
                    ("derived_from", MVal (PStr (search_url parameters)))] |} ;;
  when (existsb (String.prefix "Phrase not found") (errors results))
    (reply advisory).

(** [run(context, parameters)]. Line 41 assigns to
    [parameters.search_terms]: every later read of the attribute sees
    the new string, which the rebinding of [parameters] renders. *)
Definition run (parameters : Parameters) : M unit :=
  begin_process "Searching the NCBI Nucleotide database" ;;
  let parameters :=
    {| search_terms := replace " " "+" (search_terms parameters) |} in
  log ("Sending GET request to " ++ search_url parameters) ;;
  response <- get L (search_url parameters) ;;
  if negb (is_success response) then
    log ("Response code: " ++ str_of_int (status_code response))
  else
    match _parse_search_results (text response) with
    | Raises e =>
        if isinstance e DefusedXmlException then
          log ("Failed to process search results: " ++ exn_str e)
        else if isinstance e ValueError then
          log (exn_str e)
        else raise e
    | Returns results => report parameters results
    end.
End Entrypoint.

Definition entrypoint : AgentEntrypoint.t :=
  {| AgentEntrypoint.id := "find_sequence_records";
     AgentEntrypoint.description :=
       "Use full-text search to find sequence record IDs in NCBI's Nucleotide ("
       ++ dquote ++ "nuccore" ++ dquote ++ ") database. The records come from "
       ++ newline ++ "sequence databases like GenBank, RefSeq, TPA, and PDB."
       ++ newline;
     AgentEntrypoint.parameters := AgentEntrypoint.SearchParameters |}.

Definition _get_property_value_by_tag (tree : ElementTree.Element) (tag : string)
  : option string :=
  match ElementTree.iter tag tree with
  | node :: _ => if ElementTree.truthy node then ElementTree.text node else None
  | [] => None
  end.

Definition _list_property_values_by_tag (tree : ElementTree.Element) (tag : string)
  : list (option string) :=
  let nodes := ElementTree.iter tag tree in
  map ElementTree.text nodes.

End find_sequence_records.

(** ** [entrypoints/get_sequence_record.py] *)

(** [d | {key: value}]: the key keeps its place when it is there already,
    and goes last otherwise. *)
Fixpoint dict_set {V : Type} (d : list (string * V)) (key : string) (value : V)
  : list (string * V) :=
  match d with
  | [] => [(key, value)]
  | (k, v) :: d' =>
      if String.eqb k key then (k, value) :: d' else (k, v) :: dict_set d' key value
  end.

(** [d | other]. *)
Definition dict_or {V : Type} (d other : list (string * V)) : list (string * V) :=
  fold_left (fun acc kv => dict_set acc (fst kv) (snd kv)) other d.

(** [v.get(key, default)] on any value. *)
Definition py_get_or (v : pyval) (key : string) (default : pyval) : outcome pyval :=
  match v with
  | PDict d => Returns (match lookup key d with Some x => x | None => default end)
  | _ => Raises (Exn AttributeError
                   ("'" ++ type_name v ++ "' object has no attribute 'get'"))
  end.

Module get_sequence_record.

Record Parameters : Type := { accession_number : string }.

Section Entrypoint.
Variable L : Libraries.

Definition xml_url (parameters : Parameters) : string :=
  "https://eutils.ncbi.nlm.nih.gov/entrez/eutils/efetch.fcgi?db=nuccore&id="
  ++ accession_number parameters ++ "&rettype=gb&retmode=xml".

Definition flat_file_url (parameters : Parameters) : string :=
  "https://eutils.ncbi.nlm.nih.gov/entrez/eutils/efetch.fcgi?db=nuccore&id="
  ++ accession_number parameters ++ "&rettype=gb&retmode=text".

Definition portal_sentence (portal_link : string) : string :=
  " The record is also available in the NCBI Nucleotide portal at " ++ portal_link.

Definition comparison : string :=
  "The two artifacts contain the same data but in different formats. The flat file format is more"
  ++ " human-friendly, while the JSON format is more machine-friendly. The JSON format was converted from"
  ++ " the original XML returned by the API to make it easier to process.".

Definition unbound_portal_link : exn :=
  Exn UnboundLocalError
    "cannot access local variable 'portal_link' where it is not associated with a value".

(** Lines 47-50: the three fields read from [GBSet -> GBSeq]. *)
Definition record_fields (json_record : dict) : outcome (pyval * pyval * pyval) :=
  let! gbseq := py_get_or (match lookup "GBSet" json_record with
                           | Some v => v
                           | None => PDict []
                           end) "GBSeq" (PDict []) in
  let! record_definition := py_get gbseq "GBSeq_definition" in
  let! record_primary_accession := py_get gbseq "GBSeq_primary-accession" in
  let! record_accession_version := py_get gbseq "GBSeq_accession-version" in
  Returns (record_definition, record_primary_accession, record_accession_version).

(** Lines 69-93: the flat-file fetch, the second artifact and the final
    reply. The local [portal_link] is [None] while no assignment to it
    has run; reading it then raises. *)
Definition flat_file_step (parameters : Parameters) (record_definition : pyval)
    (metadata : list (string * meta)) (portal_link : option string) : M unit :=
  let flat_file_url := flat_file_url parameters in
  log ("Retrieving flat file nucleotide record from " ++ flat_file_url) ;;
  response <- get L flat_file_url ;;
  if negb (is_success response) then
    log ("Response code: " ++ str_of_int (status_code response)) ;;
    reply "Failed to retrieve flat file record"
  else
    create_artifact
      {| mimetype := "text/plain";
         description := "Flat file nucleotide sequence record "
                        ++ accession_number parameters ++ ": "
                        ++ py_str L record_definition;
         content := None;
         uris := Some [flat_file_url];
         metadata := metadata |} ;;
    match portal_link with
    | None => raise unbound_portal_link
    | Some link =>
        reply (comparison
               ++ (if truthy (PStr link) then portal_sentence link else ""))
    end.

Definition run (parameters : Parameters) : M unit :=
  begin_process "Searching the NCBI Nucleotide database" ;;
  let xml_url := xml_url parameters in
  log ("Retrieving XML nucleotide record from " ++ xml_url) ;;
  response <- get L xml_url ;;
  if negb (is_success response) then
    log ("Response code: " ++ str_of_int (status_code response)) ;;
    reply "Failed to retrieve XML record"
  else
    log "Converting XML record to JSON" ;;
    json_record <- lift (xmltodict_parse L (text response)) ;;
    fields <- lift (record_fields json_record) ;;
    let '(record_definition, record_primary_accession, record_accession_version) :=
      fields in
    let metadata := [("data_source", MVal (PStr "Nucleotide"))] in
    bound <-
      (if truthy record_primary_accession then
         let portal_link :=
           "https://www.ncbi.nlm.nih.gov/nuccore/"
           ++ py_str L record_primary_accession in
         log ("An online version of the record is available at " ++ portal_link) ;;
         ret (Some portal_link,
              dict_or metadata
                [("link_to_view_record_on_ncbi_portal", MVal (PStr portal_link))])
       else ret (None, metadata)) ;;
    let '(portal_link, metadata) := bound in
    let metadata :=
      if truthy record_primary_accession then
        dict_or metadata [("primary_accession", MVal record_primary_accession)]
      else metadata in
    let metadata :=
      if truthy record_accession_version then
        dict_or metadata [("accession_version", MVal record_accession_version)]
      else metadata in
    create_artifact
      {| mimetype := "application/json";
         description := "JSON nucleotide sequence record "
                        ++ accession_number parameters ++ ": "
                        ++ py_str L record_definition;
         content := Some (utf8_encode (json_dumps L (PDict json_record)));
         uris := None;
         metadata := dict_or metadata [("derived_from", MVal (PStr xml_url))] |} ;;
    flat_file_step parameters record_definition metadata portal_link.
End Entrypoint.

Definition entrypoint : AgentEntrypoint.t :=
  {| AgentEntrypoint.id := "get_sequence_record";
     AgentEntrypoint.description :=
       "Given a sequence record ID (e.g. a GenBAnk accession number, GI number, Nucleotide UID, etc.), downloads the associated"
       ++ newline ++ "sequence record. Retrieves a human-friendly " ++ dquote
       ++ "flat file" ++ dquote
       ++ " (.gb) record and generates a machine-friendly JSON version." ++ newline;
     AgentEntrypoint.parameters := AgentEntrypoint.RecordParameters |}.

End get_sequence_record.

(** ** [agent.py] *)

Module agent.

(** What the host may pass as [params]: an instance of either [Parameters]
    class, or [None]. *)
Inductive params : Type :=
| SearchParams (p : find_sequence_records.Parameters)
| RecordParams (p : get_sequence_record.Parameters)
| NoParams.

(** [type(params).__name__] *)
Definition class_name (p : params) : string :=
  match p with
  | SearchParams _ | RecordParams _ => "Parameters"
  | NoParams => "NoneType"
  end.

Definition get_agent_card : AgentCard.t :=
  {| AgentCard.name := "Nucleotide";
     AgentCard.description :=
       "Search tools for NCBI's Nucleotide (" ++ dquote ++ "nuccore" ++ dquote
       ++ ") sequence database.";
     AgentCard.icon := None;
     AgentCard.entrypoints :=
       [find_sequence_records.entrypoint; get_sequence_record.entrypoint] |}.

Section Agent.
Variable L : Libraries.
Variable B : find_sequence_records.BaseModel.

(** [find_sequence_records.run(context, params)] for whatever [params] is:
    the first read of [parameters.search_terms] (line 41, inside the
    process) fails on an object without the attribute. *)
Definition find_sequence_records_run (p : params) : M unit :=
  match p with
  | SearchParams parameters => find_sequence_records.run L B parameters
  | _ =>
      begin_process "Searching the NCBI Nucleotide database" ;;
      raise (Exn AttributeError
               ("'" ++ class_name p ++ "' object has no attribute 'search_terms'"))
  end.

(** [get_sequence_record.run(context, params)], likewise: line 34 reads
    [parameters.accession_number]. *)
Definition get_sequence_record_run (p : params) : M unit :=
  match p with
  | RecordParams parameters => get_sequence_record.run L parameters
  | _ =>
      begin_process "Searching the NCBI Nucleotide database" ;;
      raise (Exn AttributeError
               ("'" ++ class_name p ++ "' object has no attribute 'accession_number'"))
  end.

(** [NCBINucleotideAgent.run(context, request, entrypoint, params)] *)
Definition run (request : string) (entrypoint : string) (p : params) : M unit :=
  if String.eqb entrypoint (AgentEntrypoint.id find_sequence_records.entrypoint) then
    find_sequence_records_run p
  else if String.eqb entrypoint (AgentEntrypoint.id get_sequence_record.entrypoint) then
    get_sequence_record_run p
  else raise (Exn ValueError "").
End Agent.

End agent.

(** ** [util.py] *)

Module util.

(** The values of a validation error's dict: [None], booleans, strings and
    dicts. *)
Inductive value : Type :=
| VNone
| VBool (b : bool)
| VStr (s : string)
| VDict (entries : list (string * value)).

Definition truthy (v : value) : bool :=
  match v with
  | VNone => false
  | VBool b => b
  | VStr s => negb (String.eqb s "")
  | VDict d => negb (Nat.eqb (List.length d) 0)
  end.

Definition type_name (v : value) : string :=
  match v with
  | VNone => "NoneType"
  | VBool _ => "bool"
  | VStr _ => "str"
  | VDict _ => "dict"
  end.

Fixpoint lookup (key : string) (d : list (string * value)) : option value :=
  match d with
  | [] => None
  | (k, v) :: d' => if String.eqb k key then Some v else lookup key d'
  end.

(** [v.get(key, default)] *)
Definition get_or (v : value) (key : string) (default : value) : outcome value :=
  match v with
  | VDict d => Returns (match lookup key d with Some x => x | None => default end)
  | _ => Raises (Exn AttributeError
                   ("'" ++ type_name v ++ "' object has no attribute 'get'"))
  end.

(** The objects the two functions are handed as [e]: a pydantic
    [ValidationError] with the dicts [e.errors()] returns, or any other
    exception. *)
Inductive exception : Type :=
| ValidationError_with (errors : list (list (string * value)))
| Other (e : exn).

(** The [for] loop of [_get_terminal_validation_error]. *)
Fixpoint first_terminal (errors : list (list (string * value)))
  : outcome (option (list (string * value))) :=
  match errors with
  | [] => Returns None
  | error :: errors' =>
      let! ctx := get_or (VDict error) "ctx" (VDict []) in
      let! terminal := get_or ctx "terminal" (VBool false) in
      if truthy terminal then Returns (Some error) else first_terminal errors'
  end.

Definition _get_terminal_validation_error (e : exception)
  : outcome (option (list (string * value))) :=
  match e with
  | ValidationError_with errors => first_terminal errors
  | Other _ => Returns None
  end.

(** What [StopOnTerminalErrorOrMaxAttempts.__call__] reads of the retry
    state: [outcome.exception()], which is [None] after a successful
    attempt, and [attempt_number]. *)
Record RetryCallState : Type := {
  outcome_exception : option exception;
  attempt_number : Z
}.

Record StopOnTerminalErrorOrMaxAttempts : Type := { max_attempts : Z }.

(** [self(retry_state)]; the test of the returned dict is a test of its
    truth. *)
Definition __call__ (self : StopOnTerminalErrorOrMaxAttempts)
    (retry_state : RetryCallState) : outcome bool :=
  let! found :=
    match outcome_exception retry_state with
    | Some e => _get_terminal_validation_error e
    | None => Returns None
    end in
  if match found with
     | Some error => truthy (VDict error)
     | None => false
     end
  then Returns true
  else Returns (max_attempts self <=? attempt_number retry_state)%Z.

End util.

(** * Vocabulary of the properties *)

Section SearchVocabulary.
Import find_sequence_records.

(** The parameters object after line 41 of [run]. *)
Definition encoded (parameters : Parameters) : Parameters :=
  {| search_terms := replace " " "+" (search_terms parameters) |}.

(** What [run] has emitted when the response of the GET arrives. *)
Definition request_events (parameters : Parameters) : list event :=
  [BeginProcess "Searching the NCBI Nucleotide database";
   Log ("Sending GET request to " ++ search_url (encoded parameters));
   HttpGet (search_url (encoded parameters))].

(** The log lines of a search without matches (lines 59-64). *)
Definition no_match_events (results : SearchResults) : list event :=
  if (count results =? 0)%Z then
    (Log "No matching records found in the NCBI Nucleotide database."
     :: (if negb (Nat.eqb (List.length (errors results)) 0)
         then [Log ("NCBI reported: " ++ String.concat ", " (errors results))]
         else [])
     ++ (if negb (Nat.eqb (List.length (warnings results)) 0)
         then [Log ("Note: " ++ String.concat ", " (warnings results))]
         else []))%list
  else [].

(** The artifact of a search (lines 66-75). *)
Definition search_artifact (B : BaseModel) (parameters : Parameters)
    (results : SearchResults) : artifact :=
  {| mimetype := "application/json";
     description := "Nucleotide IDs for sequence records matching "
                    ++ dquote ++ search_terms parameters ++ dquote;
     content := Some (utf8_encode (model_dump_json B results));
     uris := None;
     metadata := [("data_source", MVal (PStr "Nucleotide database"));
                  ("api_search_terms", MSet [search_terms parameters]);
                  ("derived_from", MVal (PStr (search_url parameters)))] |}.



End SearchVocabulary.

Section FetchVocabulary.
Import get_sequence_record.

(** The metadata dict after lines 52-60. *)
Definition record_metadata (L : Libraries) (accession version : pyval)
  : list (string * meta) :=
  let metadata := [("data_source", MVal (PStr "Nucleotide"))] in
  let metadata :=
    if truthy accession then
      dict_or metadata
        [("link_to_view_record_on_ncbi_portal",
          MVal (PStr ("https://www.ncbi.nlm.nih.gov/nuccore/" ++ py_str L accession)))]
    else metadata in
  let metadata :=
    if truthy accession then dict_or metadata [("primary_accession", MVal accession)]
    else metadata in
  if truthy version then dict_or metadata [("accession_version", MVal version)]
  else metadata.

(** What [run] has emitted when both fetches have succeeded and the second
    artifact is out. *)
Definition fetched_events (L : Libraries) (parameters : Parameters)
    (json_record : dict) (definition accession version : pyval) : list event :=
  ([BeginProcess "Searching the NCBI Nucleotide database";
    Log ("Retrieving XML nucleotide record from " ++ xml_url parameters);
    HttpGet (xml_url parameters);
    Log "Converting XML record to JSON"]
   ++ (if truthy accession then
         [Log ("An online version of the record is available at "
               ++ "https://www.ncbi.nlm.nih.gov/nuccore/" ++ py_str L accession)]
       else [])
   ++ [CreateArtifact
         {| mimetype := "application/json";
            description := "JSON nucleotide sequence record "
                           ++ accession_number parameters ++ ": "
                           ++ py_str L definition;
            content := Some (utf8_encode (json_dumps L (PDict json_record)));
            uris := None;
            metadata := dict_or (record_metadata L accession version)
                          [("derived_from", MVal (PStr (xml_url parameters)))] |};
       Log ("Retrieving flat file nucleotide record from " ++ flat_file_url parameters);
       HttpGet (flat_file_url parameters);
       CreateArtifact
         {| mimetype := "text/plain";
            description := "Flat file nucleotide sequence record "
                           ++ accession_number parameters ++ ": "
                           ++ py_str L definition;
            content := None;
            uris := Some [flat_file_url parameters];
            metadata := record_metadata L accession version |}])%list.

End FetchVocabulary.

(** * Sample environments *)

(** ** Stand-ins for the libraries *)

(** A phrase of 120 characters. *)
Definition long_phrase : string := string_of_list_ascii (repeat "a"%char 120).

Definition phrase_document (phrase : string) : string :=
  "<eSearchResult><Count>0</Count><RetMax>0</RetMax><RetStart>0</RetStart>"
  ++ "<ErrorList><PhraseNotFound>" ++ phrase ++ "</PhraseNotFound></ErrorList>"
  ++ "<WarningList><OutputMessage>No items found.</OutputMessage></WarningList>"
  ++ "</eSearchResult>".

Definition phrase_parsed (phrase : string) : dict :=
  [("eSearchResult",
    PDict [("Count", PStr "0"); ("RetMax", PStr "0"); ("RetStart", PStr "0");
           ("ErrorList", PDict [("PhraseNotFound", PStr phrase)]);
           ("WarningList", PDict [("OutputMessage", PStr "No items found.")])])].

(** Response texts, each with what [xmltodict.parse] makes of it: an
    element without attributes, children or text is [None], text is a
    string, children are the keys of a dict, an attribute is a key that
    starts with [@]; text that is not well-formed makes the XML parser
    raise its [ExpatError]. *)
Definition sample_documents : list (string * outcome dict) :=
  [("<eSearchResult><Count>3</Count><RetMax>3</RetMax><RetStart>0</RetStart></eSearchResult>",
    Returns [("eSearchResult",
              PDict [("Count", PStr "3"); ("RetMax", PStr "3"); ("RetStart", PStr "0")])]);
   ("<html/>", Returns [("html", PNone)]);
   ("<eSearchResult/>", Returns [("eSearchResult", PNone)]);
   ("<eSearchResult db='nuccore'/>",
    Returns [("eSearchResult", PDict [("@db", PStr "nuccore")])]);
   ("<eSearchResult><RetMax>20</RetMax></eSearchResult>",
    Returns [("eSearchResult", PDict [("RetMax", PStr "20")])]);
   ("<eSearchResult><Count>abc</Count></eSearchResult>",
    Returns [("eSearchResult", PDict [("Count", PStr "abc")])]);
   ("<eSearchResult><Count>1",
    Raises (Exn ExpatError "no element found: line 1, column 23"));
   (phrase_document "zzzz", Returns (phrase_parsed "zzzz"));
   (phrase_document long_phrase, Returns (phrase_parsed long_phrase));
   ("<GBSet><GBSeq><GBSeq_definition>Sample record</GBSeq_definition></GBSeq></GBSet>",
    Returns [("GBSet",
              PDict [("GBSeq", PDict [("GBSeq_definition", PStr "Sample record")])])]);
   ("<GBSet><GBSeq><GBSeq_primary-accession>JQ814272</GBSeq_primary-accession></GBSeq></GBSet>",
    Returns [("GBSet",
              PDict [("GBSeq", PDict [("GBSeq_primary-accession", PStr "JQ814272")])])])].

Fixpoint parse_table (table : list (string * outcome dict)) (xml : string)
  : outcome dict :=
  match table with
  | [] => Raises (Exn ExpatError "syntax error: line 1, column 0")
  | (document, parsed) :: table' =>
      if String.eqb document xml then parsed else parse_table table' xml
  end.

(** [repr], right for [None] and for strings that need no escaping. *)
Definition sample_repr (v : pyval) : string :=
  match v with
  | PNone => "None"
  | PStr s => "'" ++ s ++ "'"
  | PList _ => "[...]"
  | PDict _ => "{...}"
  end.

(** A client that answers every request with the same status and text, and
    a parser that knows the sample documents. *)
Definition sample_libraries (status : Z) (body : string) : Libraries :=
  {| http_get := fun _ => Returns {| status_code := status; text := body |};
     xmltodict_parse := parse_table sample_documents;
     repr := sample_repr;
     json_dumps := fun _ => "{...}" |}.

Definition json_string (s : string) : string := dquote ++ s ++ dquote.

Definition json_strings (l : list string) : string :=
  "[" ++ String.concat "," (map json_string l) ++ "]".

(** The model's compact JSON, right for strings that need no escaping. *)
Definition sample_model : find_sequence_records.BaseModel :=
  {| find_sequence_records.model_dump_json := fun r =>
       "{" ++ json_string "count" ++ ":" ++ str_of_int (find_sequence_records.count r)
       ++ "," ++ json_string "page" ++ ":" ++ str_of_int (find_sequence_records.page r)
       ++ "," ++ json_string "page_size" ++ ":"
       ++ str_of_int (find_sequence_records.page_size r)
       ++ "," ++ json_string "sequence_ids" ++ ":"
       ++ json_strings (find_sequence_records.sequence_ids r)
       ++ "," ++ json_string "errors" ++ ":"
       ++ json_strings (find_sequence_records.errors r)
       ++ "," ++ json_string "warnings" ++ ":"
       ++ json_strings (find_sequence_records.warnings r) ++ "}";
     find_sequence_records.validation_error_str := fun _ =>
       "1 validation error for SearchResults" |}.

(** [repr], right also for a list of strings that need no escaping. *)
Fixpoint list_repr (v : pyval) : string :=
  match v with
  | PList items => "[" ++ String.concat ", " (map list_repr items) ++ "]"
  | _ => sample_repr v
  end.

(** A response that reports several phrases as not found, one
    [PhraseNotFound] element each, as ESearch does for a query such as
    [zzzz AND qqqq]. *)
Definition phrases_document (phrases : list string) : string :=
  "<eSearchResult><Count>0</Count><RetMax>0</RetMax><RetStart>0</RetStart><ErrorList>"
  ++ String.concat ""
       (map (fun phrase => "<PhraseNotFound>" ++ phrase ++ "</PhraseNotFound>") phrases)
  ++ "</ErrorList></eSearchResult>".

(** What the parser makes of it when there are two phrases or more:
    elements that repeat under one parent become one key with the list of
    their values. *)
Definition phrases_parsed (phrases : list string) : dict :=
  [("eSearchResult",
    PDict [("Count", PStr "0"); ("RetMax", PStr "0"); ("RetStart", PStr "0");
           ("ErrorList", PDict [("PhraseNotFound", PList (map PStr phrases))])])].

(** A client that answers with that response, and a parser that knows it. *)
Definition phrases_libraries (phrases : list string) : Libraries :=
  {| http_get := fun _ =>
       Returns {| status_code := 200; text := phrases_document phrases |};
     xmltodict_parse := parse_table [(phrases_document phrases,
                                      Returns (phrases_parsed phrases))];
     repr := list_repr;
     json_dumps := fun _ => "{...}" |}.

(** The strings a metadata value holds. *)
Definition meta_strings (m : meta) : list string :=
  match m with
  | MVal (PStr s) => [s]
  | MSet items => items
  | MVal _ => []
  end.

(** What the parser yields for an element with no child elements and no
    text: [None], or a dict of attributes only. *)
Definition childless_and_textless (v : pyval) : bool :=
  match v with
  | PNone => true
  | PDict entries => forallb (fun kv => String.prefix "@" (fst kv)) entries
  | _ => false
  end.

Definition rattus : find_sequence_records.Parameters :=
  {| find_sequence_records.search_terms := "Rattus rattus" |}.

Definition found_three : string :=
  "<eSearchResult><Count>3</Count><RetMax>3</RetMax><RetStart>0</RetStart></eSearchResult>".

Definition jq814272 : get_sequence_record.Parameters :=
  {| get_sequence_record.accession_number := "JQ814272" |}.

Definition record_without_accession : string :=
  "<GBSet><GBSeq><GBSeq_definition>Sample record</GBSeq_definition></GBSeq></GBSet>".

Definition record_with_accession : string :=
  "<GBSet><GBSeq><GBSeq_primary-accession>JQ814272</GBSeq_primary-accession></GBSeq></GBSet>".

(** * Properties *)

(** ** Traces *)

Lemma artifacts_app t1 t2 : artifacts (t1 ++ t2) = (artifacts t1 ++ artifacts t2)%list.
Proof. apply flat_map_app. Qed.

Lemma replies_app t1 t2 : replies (t1 ++ t2) = (replies t1 ++ replies t2)%list.
Proof. apply flat_map_app. Qed.

Lemma requests_app t1 t2 : requests (t1 ++ t2) = (requests t1 ++ requests t2)%list.
Proof. apply flat_map_app. Qed.

(** ** The class hierarchy *)

Lemma issubclass_refl c : issubclass c c = true.
Proof. destruct c; reflexivity. Qed.

(** Neither [except] clause of the search catches an [ExpatError]. *)
Lemma expat_error_unhandled message :
  isinstance (Exn ExpatError message) DefusedXmlException = false
  /\ isinstance (Exn ExpatError message) ValueError = false.
Proof. split; reflexivity. Qed.

(** An exception caught as [DefusedXmlException] would be caught as
    [ValueError] too. *)
Lemma defused_is_value_error e :
  isinstance e DefusedXmlException = true -> isinstance e ValueError = true.
Proof. destruct e as [[] m]; cbn; congruence. Qed.

(** ** Strings *)

Lemma append_inj_l (a b c : string) : a ++ b = a ++ c -> b = c.
Proof.
  induction a as [|x a IH]; cbn; intros H; [assumption|].
  injection H as H. auto.
Qed.



Lemma eqb_empty_false (s : string) : s <> "" -> String.eqb s "" = false.
Proof. intros H. apply String.eqb_neq. exact H. Qed.

Section SearchProperties.
Import find_sequence_records.
Variable L : Libraries.
Variable B : BaseModel.

Lemma no_match_events_quiet results :
  artifacts (no_match_events results) = [] /\ replies (no_match_events results) = [].
Proof.
  unfold no_match_events.
  destruct (count results =? 0)%Z; [|split; reflexivity].
  destruct (negb _), (negb _); split; reflexivity.
Qed.

Lemma report_eq parameters results :
  report B parameters results =
    ((no_match_events results
      ++ CreateArtifact (search_artifact B parameters results)
         :: (if existsb (String.prefix "Phrase not found") (errors results)
             then [Reply advisory] else []))%list,
     Returns tt).
Proof.
  unfold report, no_match_events, search_artifact, when.
  destruct (count results =? 0)%Z;
    [destruct (negb (Nat.eqb (List.length (errors results)) 0)),
              (negb (Nat.eqb (List.length (warnings results)) 0))|];
    destruct (existsb _ _); reflexivity.
Qed.

(** [run], path by path. *)
Lemma run_eq parameters :
  run L B parameters =
    match http_get L (search_url (encoded parameters)) with
    | Raises e => (request_events parameters, Raises e)
    | Returns response =>
        if negb (is_success response) then
          ((request_events parameters
            ++ [Log ("Response code: " ++ str_of_int (status_code response))])%list,
           Returns tt)
        else
          match _parse_search_results L B (text response) with
          | Raises e =>
              if isinstance e DefusedXmlException then
                ((request_events parameters
                  ++ [Log ("Failed to process search results: " ++ exn_str e)])%list,
                 Returns tt)
              else if isinstance e ValueError then
                ((request_events parameters ++ [Log (exn_str e)])%list, Returns tt)
              else (request_events parameters, Raises e)
          | Returns results =>
              ((request_events parameters
                ++ fst (report B (encoded parameters) results))%list,
               Returns tt)
          end
    end.
Proof.
  unfold run, request_events, encoded, get, begin_process, log, emit, bind, raise.
  destruct (http_get L _) as [response|e]; [|reflexivity].
  destruct (negb (is_success response)); [reflexivity|].
  destruct (_parse_search_results L B (text response)) as [results|e].
  - rewrite report_eq. reflexivity.
  - destruct (isinstance e DefusedXmlException); [reflexivity|].
    destruct (isinstance e ValueError); reflexivity.
Qed.

Lemma request_events_quiet parameters :
  artifacts (request_events parameters) = []
  /\ replies (request_events parameters) = [].
Proof. split; reflexivity. Qed.

(** *** The normalizer on a missing or falsy root *)

Lemma lookup_some_truthy key d v : lookup key d = Some v -> truthy (PDict d) = true.
Proof. destruct d; [discriminate | reflexivity]. Qed.

Lemma normalizer_falsy_root xml parsed :
  xmltodict_parse L xml = Returns parsed ->
  truthy (dict_get parsed "eSearchResult") = false ->
  _parse_search_results L B xml = Raises missing_root.
Proof.
  intros Hparse Hfalsy. unfold _parse_search_results.
  rewrite Hparse. cbn [obind]. rewrite Hfalsy. reflexivity.
Qed.

Lemma run_missing_root parameters response :
  http_get L (search_url (encoded parameters)) = Returns response ->
  _parse_search_results L B (text response) = Raises missing_root ->
  exists t,
    run L B parameters = (t, Returns tt)
    /\ artifacts t = [] /\ replies t = []
    /\ (is_success response = true ->
        logs t = ["Sending GET request to " ++ search_url (encoded parameters);
                  "Invalid response from NCBI: missing eSearchResult element"]).
Proof.
  intros Hget Hroot. rewrite run_eq, Hget.
  destruct (is_success response); cbn [negb].
  - rewrite Hroot. eexists; split; [reflexivity|]. repeat split.
  - eexists; split; [reflexivity|]. repeat split. discriminate.
Qed.

(** C1: when the parsed document has no [eSearchResult] key, the normalizer
    raises the missing-root [ValueError] and returns no result; a search
    whose response carries such a document returns normally with no
    artifact (and, on a 2xx response, has logged the missing-root
    message). *)
Theorem search_missing_root_fails xml parsed :
  xmltodict_parse L xml = Returns parsed ->
  lookup "eSearchResult" parsed = None ->
  _parse_search_results L B xml = Raises missing_root
  /\ forall parameters response,
       http_get L (search_url (encoded parameters)) = Returns response ->
       text response = xml ->
       exists t,
         run L B parameters = (t, Returns tt)
         /\ artifacts t = [] /\ replies t = []
         /\ (is_success response = true ->
             logs t = ["Sending GET request to " ++ search_url (encoded parameters);
                       "Invalid response from NCBI: missing eSearchResult element"]).
Proof.
  intros Hparse Habsent.
  assert (Hroot : _parse_search_results L B xml = Raises missing_root).
  { apply normalizer_falsy_root with (parsed := parsed); [assumption|].
    unfold dict_get. rewrite Habsent. reflexivity. }
  split; [exact Hroot|].
  intros parameters response Hget Htext. subst xml.
  apply run_missing_root; assumption.
Qed.

(** C10, as amended: when the parsed document has the [eSearchResult] key
    with a falsy value ([None], which is what the parser yields for an
    element with no attributes, no children and no text), the normalizer
    raises the same missing-root [ValueError] as for an absent key, and so
    returns no result at all. *)
Theorem normalizer_empty_root_fails xml parsed v :
  xmltodict_parse L xml = Returns parsed ->
  lookup "eSearchResult" parsed = Some v ->
  truthy v = false ->
  _parse_search_results L B xml = Raises missing_root
  /\ forall results, _parse_search_results L B xml <> Returns results.
Proof.
  intros Hparse Hpresent Hfalsy.
  assert (Hroot : _parse_search_results L B xml = Raises missing_root).
  { apply normalizer_falsy_root with (parsed := parsed); [assumption|].
    unfold dict_get. rewrite Hpresent. exact Hfalsy. }
  split; [exact Hroot|].
  intros results Hreturns. rewrite Hroot in Hreturns. discriminate.
Qed.

(** *** Transport and parse failures *)

(** C9: on a non-2xx response the search logs the status code and returns
    normally; it creates no artifact and sends no reply. *)
Theorem search_transport_failure parameters response :
  http_get L (search_url (encoded parameters)) = Returns response ->
  is_success response = false ->
  exists t,
    run L B parameters = (t, Returns tt)
    /\ logs t = ["Sending GET request to " ++ search_url (encoded parameters);
                 "Response code: " ++ str_of_int (status_code response)]
    /\ artifacts t = [] /\ replies t = [].
Proof.
  intros Hget Hfail. rewrite run_eq, Hget, Hfail. cbn [negb].
  eexists; split; [reflexivity|]. repeat split.
Qed.

(** What [_parse_search_results] does with an exception of the parser: it
    lets it through. *)
Lemma normalizer_parser_raises xml e :
  xmltodict_parse L xml = Raises e -> _parse_search_results L B xml = Raises e.
Proof. intros H. unfold _parse_search_results. rewrite H. reflexivity. Qed.

(** C3: what the search does when [xmltodict.parse] raises on the response
    text. No artifact and no reply either way; the exception is logged and
    the call returns only when it is a [DefusedXmlException] or another
    [ValueError]; any other exception (the XML parser's own [ExpatError],
    for text that is not well-formed) leaves [run] unlogged. *)
Theorem search_parse_failure parameters response e :
  http_get L (search_url (encoded parameters)) = Returns response ->
  is_success response = true ->
  xmltodict_parse L (text response) = Raises e ->
  artifacts (fst (run L B parameters)) = []
  /\ replies (fst (run L B parameters)) = []
  /\ run L B parameters =
       if isinstance e DefusedXmlException then
         ((request_events parameters
           ++ [Log ("Failed to process search results: " ++ exn_str e)])%list,
          Returns tt)
       else if isinstance e ValueError then
         ((request_events parameters ++ [Log (exn_str e)])%list, Returns tt)
       else (request_events parameters, Raises e).
Proof.
  intros Hget Hok Hraise.
  apply normalizer_parser_raises in Hraise.
  rewrite run_eq, Hget, Hok, Hraise. cbn [negb].
  destruct (isinstance e DefusedXmlException);
    [|destruct (isinstance e ValueError)]; repeat split.
Qed.

(** *** The success path *)

(** C7: on the success path the trace ends with the artifact, followed by
    the advisory reply exactly when some entry of [errors] starts with
    "Phrase not found"; nothing before the artifact is a reply or an
    artifact, and the advisory names both operations. *)
Theorem search_advisory_reply parameters response results :
  http_get L (search_url (encoded parameters)) = Returns response ->
  is_success response = true ->
  _parse_search_results L B (text response) = Returns results ->
  exists t a,
    artifacts t = [] /\ replies t = []
    /\ run L B parameters =
         ((t ++ CreateArtifact a
                :: (if existsb (String.prefix "Phrase not found") (errors results)
                    then [Reply advisory] else []))%list,
          Returns tt)
    /\ contains "find_sequence_records" advisory = true
    /\ contains "get_sequence_record" advisory = true.
Proof.
  intros Hget Hok Hresults.
  exists (request_events parameters ++ no_match_events results)%list,
         (search_artifact B (encoded parameters) results).
  destruct (no_match_events_quiet results) as [Ha Hr].
  split; [rewrite artifacts_app, Ha; reflexivity|].
  split; [rewrite replies_app, Hr; reflexivity|].
  split; [|split; vm_compute; reflexivity].
  rewrite run_eq, Hget, Hok, Hresults. cbn [negb].
  rewrite report_eq. cbn [fst]. rewrite <- app_assoc. reflexivity.
Qed.

(** No other path of [run] replies: a reply in the trace means the success
    path was taken and some entry of [errors] starts with "Phrase not
    found". *)
Lemma search_reply_only_for_phrase_not_found parameters :
  replies (fst (run L B parameters)) <> [] ->
  exists response results,
    http_get L (search_url (encoded parameters)) = Returns response
    /\ is_success response = true
    /\ _parse_search_results L B (text response) = Returns results
    /\ existsb (String.prefix "Phrase not found") (errors results) = true
    /\ replies (fst (run L B parameters)) = [advisory].
Proof.
  rewrite run_eq.
  destruct (http_get L _) as [response|e] eqn:Hget; [|intros H; now elim H].
  destruct (is_success response) eqn:Hok; cbn [negb]; [|intros H; now elim H].
  destruct (_parse_search_results L B (text response)) as [results|e] eqn:Hparse.
  - rewrite report_eq. cbn [fst].
    destruct (no_match_events_quiet results) as [_ Hr].
    rewrite !replies_app, Hr.
    destruct (existsb _ _) eqn:Hany; [|intros H; now elim H].
    intros _. exists response, results. repeat split; assumption || reflexivity.
  - destruct (isinstance e DefusedXmlException);
      [|destruct (isinstance e ValueError)]; intros H; now elim H.
Qed.

(** C8, as amended: on the success path the search creates exactly one
    artifact: MIME type [application/json], content the UTF-8 bytes of the
    model's JSON, and metadata holding the data source tag, the search
    terms as sent to the API (spaces already replaced by [+], as a
    one-element set) and the request URL. *)
Theorem search_success_artifact parameters response results :
  http_get L (search_url (encoded parameters)) = Returns response ->
  is_success response = true ->
  _parse_search_results L B (text response) = Returns results ->
  exists a,
    artifacts (fst (run L B parameters)) = [a]
    /\ snd (run L B parameters) = Returns tt
    /\ mimetype a = "application/json"
    /\ content a = Some (utf8_encode (model_dump_json B results))
    /\ metadata a =
         [("data_source", MVal (PStr "Nucleotide database"));
          ("api_search_terms", MSet [replace " " "+" (search_terms parameters)]);
          ("derived_from",
           MVal (PStr ("https://eutils.ncbi.nlm.nih.gov/entrez/eutils/esearch.fcgi?db=nuccore&term="
                       ++ replace " " "+" (search_terms parameters))))].
Proof.
  intros Hget Hok Hresults.
  exists (search_artifact B (encoded parameters) results).
  rewrite run_eq, Hget, Hok, Hresults. cbn [negb fst snd].
  rewrite report_eq. cbn [fst].
  destruct (no_match_events_quiet results) as [Ha _].
  rewrite !artifacts_app, Ha.
  destruct (existsb _ _); repeat split.
Qed.

(** *** The integer fields *)


Lemma py_int_non_numeric s :
  int_of_str s = None -> exists message, py_int L (PStr s) = Raises (Exn ValueError message).
Proof.
  unfold int_of_str, py_int. destruct (parse_literal s) as [[z' n]|].
  - destruct (n <=? max_str_digits); [discriminate|]. intros _. eexists; reflexivity.
  - intros _. eexists; reflexivity.
Qed.



Lemma normalizer_returns xml parsed data errs wl ws c p ps :
  xmltodict_parse L xml = Returns parsed ->
  lookup "eSearchResult" parsed = Some (PDict data) ->
  data <> [] ->
  errors_of L (PDict data) = Returns errs ->
  warnings_of (PDict data) = Returns wl ->
  all_str wl = Some ws ->
  int_field L (PDict data) "Count" = Returns c ->
  int_field L (PDict data) "RetStart" = Returns p ->
  int_field L (PDict data) "RetMax" = Returns ps ->
  _parse_search_results L B xml =
    Returns {| count := c; page := p; page_size := ps; sequence_ids := [];
               errors := errs; warnings := ws |}.
Proof.
  intros Hparse Hroot Hne Herrs Hwarn Hall Hc Hp Hps.
  unfold _parse_search_results, dict_get. rewrite Hparse. cbn [obind].
  rewrite Hroot.
  assert (Ht : truthy (PDict data) = true) by (destruct data; [contradiction|reflexivity]).
  rewrite Ht. cbn [negb].
  rewrite Herrs, Hwarn, Hc, Hp, Hps. cbn [obind].
  unfold SearchResults_init. rewrite Hall. reflexivity.
Qed.


(** *** The error list *)

(** When several [PhraseNotFound] elements arrive, the value is their
    list: [len] counts the elements, up to 100 of them are printed as a
    list into the one error string, and beyond that [list + str] raises
    [TypeError]. *)
Lemma errors_of_phrase_list data error_list items :
  lookup "ErrorList" data = Some (PDict error_list) ->
  lookup "PhraseNotFound" error_list = Some (PList items) ->
  items <> [] ->
  errors_of L (PDict data) =
    if List.length items <=? 100
    then Returns ["Phrase not found: " ++ repr L (PList items)]
    else Raises (Exn TypeError
                   ("can only concatenate list (not " ++ dquote ++ "str" ++ dquote
                    ++ ") to list")).
Proof.
  intros Hlist Hphrase Hne. unfold errors_of, py_get.
  rewrite Hlist. cbn [obind].
  rewrite (lookup_some_truthy _ _ _ Hphrase), Hphrase. cbn [obind truthy].
  destruct items as [|item items]; [contradiction|].
  cbn [List.length Nat.eqb negb py_len obind].
  destruct (S (List.length items) <=? 100); reflexivity.
Qed.

End SearchProperties.

Section FetchProperties.
Import get_sequence_record.
Variable L : Libraries.

Lemma urls_differ parameters : xml_url parameters <> flat_file_url parameters.
Proof.
  unfold xml_url, flat_file_url. intros H.
  apply append_inj_l in H. apply append_inj_l in H. discriminate.
Qed.

(** C2: on a non-2xx response to the XML fetch, [run] logs the status code,
    sends the one failure reply and returns; no artifact is created, and
    the only request made is the XML one, never the flat-file one. *)
Theorem fetch_xml_failure parameters response :
  http_get L (xml_url parameters) = Returns response ->
  is_success response = false ->
  run L parameters =
    ([BeginProcess "Searching the NCBI Nucleotide database";
      Log ("Retrieving XML nucleotide record from " ++ xml_url parameters);
      HttpGet (xml_url parameters);
      Log ("Response code: " ++ str_of_int (status_code response));
      Reply "Failed to retrieve XML record"],
     Returns tt)
  /\ artifacts (fst (run L parameters)) = []
  /\ replies (fst (run L parameters)) = ["Failed to retrieve XML record"]
  /\ requests (fst (run L parameters)) = [xml_url parameters]
  /\ ~ In (flat_file_url parameters) (requests (fst (run L parameters))).
Proof.
  intros Hget Hfail.
  assert (Hrun : run L parameters =
    ([BeginProcess "Searching the NCBI Nucleotide database";
      Log ("Retrieving XML nucleotide record from " ++ xml_url parameters);
      HttpGet (xml_url parameters);
      Log ("Response code: " ++ str_of_int (status_code response));
      Reply "Failed to retrieve XML record"],
     Returns tt)).
  { unfold run, get, begin_process, log, reply, emit, bind.
    rewrite Hget, Hfail. reflexivity. }
  rewrite Hrun. cbn [fst]. repeat split.
  intros [Heq|[]]. exact (urls_differ parameters Heq).
Qed.

(** The second half of [run], once the flat-file response is in. *)
Lemma flat_file_step_eq parameters definition metadata portal_link response :
  http_get L (flat_file_url parameters) = Returns response ->
  is_success response = true ->
  flat_file_step L parameters definition metadata portal_link =
    let t :=
      [Log ("Retrieving flat file nucleotide record from " ++ flat_file_url parameters);
       HttpGet (flat_file_url parameters);
       CreateArtifact
         {| mimetype := "text/plain";
            description := "Flat file nucleotide sequence record "
                           ++ accession_number parameters ++ ": "
                           ++ py_str L definition;
            content := None;
            uris := Some [flat_file_url parameters];
            metadata := metadata |}] in
    match portal_link with
    | None => (t, Raises unbound_portal_link)
    | Some link =>
        ((t ++ [Reply (comparison
                       ++ (if truthy (PStr link) then portal_sentence link else ""))])%list,
         Returns tt)
    end.
Proof.
  intros Hget Hok.
  unfold flat_file_step, get, log, reply, create_artifact, emit, bind, raise.
  rewrite Hget, Hok. destruct portal_link; reflexivity.
Qed.

Lemma fetched_events_observed parameters json_record definition accession version :
  map mimetype (artifacts (fetched_events L parameters json_record definition accession version))
    = ["application/json"; "text/plain"]
  /\ replies (fetched_events L parameters json_record definition accession version) = [].
Proof. unfold fetched_events. destruct (truthy accession); split; reflexivity. Qed.

(** C4: with both fetches answered 2xx and the three fields read from the
    parsed record, [run] creates the two artifacts and then: when the
    primary accession is truthy, sends the final reply, which ends with the
    portal sentence, and returns; when it is not, raises
    [UnboundLocalError] on reading [portal_link], and no reply is sent. *)
Theorem fetch_final_reply parameters xml_response json_record
    definition accession version flat_response :
  http_get L (xml_url parameters) = Returns xml_response ->
  is_success xml_response = true ->
  xmltodict_parse L (text xml_response) = Returns json_record ->
  record_fields json_record = Returns (definition, accession, version) ->
  http_get L (flat_file_url parameters) = Returns flat_response ->
  is_success flat_response = true ->
  let t := fetched_events L parameters json_record definition accession version in
  map mimetype (artifacts t) = ["application/json"; "text/plain"]
  /\ replies t = []
  /\ run L parameters =
       if truthy accession then
         ((t ++ [Reply (comparison
                        ++ portal_sentence ("https://www.ncbi.nlm.nih.gov/nuccore/"
                                            ++ py_str L accession))])%list,
          Returns tt)
       else (t, Raises unbound_portal_link).
Proof.
  intros Hxml Hok Hparse Hfields Hflat Hok' t.
  destruct (fetched_events_observed parameters json_record definition accession version)
    as [Hmime Hreplies].
  split; [exact Hmime|]. split; [exact Hreplies|].
  subst t. unfold fetched_events, record_metadata.
  unfold run, get, begin_process, log, create_artifact, emit, lift, bind, ret.
  rewrite Hxml, Hok, Hparse, Hfields. cbn [negb].
  destruct (truthy accession), (truthy version);
    rewrite (flat_file_step_eq _ _ _ _ _ Hflat Hok'); reflexivity.
Qed.
End FetchProperties.

(** * Sample runs *)

(** ** The search *)

Section SearchRuns.
Import find_sequence_records.

(** A response whose root is [html]: missing root, no artifact. *)
Lemma search_missing_root_fails_witness :
  _parse_search_results (sample_libraries 200 "<html/>") sample_model "<html/>"
    = Raises missing_root
  /\ exists t,
       run (sample_libraries 200 "<html/>") sample_model rattus = (t, Returns tt)
       /\ artifacts t = [] /\ replies t = []
       /\ (is_success {| status_code := 200; text := "<html/>" |} = true ->
           logs t = ["Sending GET request to https://eutils.ncbi.nlm.nih.gov/entrez/eutils/esearch.fcgi?db=nuccore&term=Rattus+rattus";
                     "Invalid response from NCBI: missing eSearchResult element"]).
Proof.
  destruct (search_missing_root_fails (sample_libraries 200 "<html/>") sample_model
              "<html/>" [("html", PNone)] eq_refl eq_refl) as [Hroot Hrun].
  split; [exact Hroot|].
  exact (Hrun rattus {| status_code := 200; text := "<html/>" |} eq_refl eq_refl).
Defined.

(** [<eSearchResult/>]: the root is there and [None]. *)
Lemma normalizer_empty_root_fails_witness :
  _parse_search_results (sample_libraries 200 "<eSearchResult/>") sample_model
    "<eSearchResult/>" = Raises missing_root
  /\ forall results,
       _parse_search_results (sample_libraries 200 "<eSearchResult/>") sample_model
         "<eSearchResult/>" <> Returns results.
Proof.
  exact (normalizer_empty_root_fails (sample_libraries 200 "<eSearchResult/>")
           sample_model "<eSearchResult/>" [("eSearchResult", PNone)] PNone
           eq_refl eq_refl eq_refl).
Defined.

(** C10 as stated fails: a root with an attribute, no child element and no
    text is parsed to a non-empty dict, and the normalizer returns the
    all-defaults result for it. *)
Lemma normalizer_attribute_only_root_returns :
  xmltodict_parse (sample_libraries 200 "") "<eSearchResult db='nuccore'/>"
    = Returns [("eSearchResult", PDict [("@db", PStr "nuccore")])]
  /\ childless_and_textless (PDict [("@db", PStr "nuccore")]) = true
  /\ _parse_search_results (sample_libraries 200 "") sample_model
       "<eSearchResult db='nuccore'/>"
     = Returns {| count := 0; page := 0; page_size := 0; sequence_ids := [];
                  errors := []; warnings := [] |}.
Proof. repeat split. Qed.

(** A 503 answer. *)
Lemma search_transport_failure_witness :
  exists t,
    run (sample_libraries 503 "") sample_model rattus = (t, Returns tt)
    /\ logs t = ["Sending GET request to https://eutils.ncbi.nlm.nih.gov/entrez/eutils/esearch.fcgi?db=nuccore&term=Rattus+rattus";
                 "Response code: 503"]
    /\ artifacts t = [] /\ replies t = [].
Proof.
  exact (search_transport_failure (sample_libraries 503 "") sample_model rattus
           {| status_code := 503; text := "" |} eq_refl eq_refl).
Defined.

(** A 200 answer cut short: the parser's [ExpatError] comes out of [run],
    and the log has no line about it. *)
Lemma search_parse_failure_witness :
  run (sample_libraries 200 "<eSearchResult><Count>1") sample_model rattus
    = ([BeginProcess "Searching the NCBI Nucleotide database";
        Log "Sending GET request to https://eutils.ncbi.nlm.nih.gov/entrez/eutils/esearch.fcgi?db=nuccore&term=Rattus+rattus";
        HttpGet "https://eutils.ncbi.nlm.nih.gov/entrez/eutils/esearch.fcgi?db=nuccore&term=Rattus+rattus"],
       Raises (Exn ExpatError "no element found: line 1, column 23")).
Proof.
  exact (proj2 (proj2
    (search_parse_failure (sample_libraries 200 "<eSearchResult><Count>1") sample_model
       rattus {| status_code := 200; text := "<eSearchResult><Count>1" |}
       (Exn ExpatError "no element found: line 1, column 23")
       eq_refl eq_refl eq_refl))).
Defined.

(** A search that NCBI answers with "phrase not found": the artifact, then
    the advisory. *)
Lemma search_advisory_reply_witness :
  exists t a,
    artifacts t = [] /\ replies t = []
    /\ run (sample_libraries 200 (phrase_document "zzzz")) sample_model
         {| search_terms := "zzzz" |}
       = ((t ++ [CreateArtifact a; Reply advisory])%list, Returns tt)
    /\ contains "find_sequence_records" advisory = true
    /\ contains "get_sequence_record" advisory = true.
Proof.
  exact (search_advisory_reply (sample_libraries 200 (phrase_document "zzzz"))
           sample_model {| search_terms := "zzzz" |}
           {| status_code := 200; text := phrase_document "zzzz" |}
           {| count := 0; page := 0; page_size := 0; sequence_ids := [];
              errors := ["Phrase not found: zzzz"]; warnings := ["No items found."] |}
           eq_refl eq_refl eq_refl).
Defined.

(** C8 as stated fails: for the search terms "Rattus rattus" the metadata
    holds "Rattus+rattus", and no metadata value holds the terms as they
    were given. *)
Lemma search_metadata_holds_encoded_terms :
  exists a,
    artifacts (fst (run (sample_libraries 200 found_three) sample_model rattus)) = [a]
    /\ metadata a =
         [("data_source", MVal (PStr "Nucleotide database"));
          ("api_search_terms", MSet ["Rattus+rattus"]);
          ("derived_from",
           MVal (PStr "https://eutils.ncbi.nlm.nih.gov/entrez/eutils/esearch.fcgi?db=nuccore&term=Rattus+rattus"))]
    /\ ~ In (search_terms rattus)
            (flat_map (fun kv => meta_strings (snd kv)) (metadata a)).
Proof.
  eexists. split; [reflexivity|]. split; [reflexivity|].
  cbn. intros [H|[H|[H|[]]]]; discriminate.
Qed.

Lemma search_success_artifact_witness :
  exists a,
    artifacts (fst (run (sample_libraries 200 found_three) sample_model rattus)) = [a]
    /\ snd (run (sample_libraries 200 found_three) sample_model rattus) = Returns tt
    /\ mimetype a = "application/json"
    /\ content a =
         Some (utf8_encode
                 (model_dump_json sample_model
                    {| count := 3; page := 0; page_size := 3; sequence_ids := [];
                       errors := []; warnings := [] |}))
    /\ metadata a =
         [("data_source", MVal (PStr "Nucleotide database"));
          ("api_search_terms", MSet ["Rattus+rattus"]);
          ("derived_from",
           MVal (PStr "https://eutils.ncbi.nlm.nih.gov/entrez/eutils/esearch.fcgi?db=nuccore&term=Rattus+rattus"))].
Proof.
  exact (search_success_artifact (sample_libraries 200 found_three) sample_model rattus
           {| status_code := 200; text := found_three |}
           {| count := 3; page := 0; page_size := 3; sequence_ids := [];
              errors := []; warnings := [] |}
           eq_refl eq_refl eq_refl).
Defined.





(** With 101 phrases not found the list is longer than 100: the slice is a
    list again, adding "..." to it raises [TypeError], and the search ends
    with that exception, which [run] does not catch. *)
Example search_many_phrases_not_found :
  let outcome := run (phrases_libraries (repeat "zzzz" 101)) sample_model
                   {| search_terms := "zzzz" |} in
  snd outcome = Raises (Exn TypeError
                          ("can only concatenate list (not " ++ dquote ++ "str" ++ dquote
                           ++ ") to list"))
  /\ artifacts (fst outcome) = []
  /\ replies (fst outcome) = [].
Proof. vm_compute. repeat split. Qed.

End SearchRuns.

(** ** The record fetch *)

Section FetchRuns.
Import get_sequence_record.

(** A 404 answer to the XML fetch. *)
Lemma fetch_xml_failure_witness :
  run (sample_libraries 404 "") jq814272 =
    ([BeginProcess "Searching the NCBI Nucleotide database";
      Log "Retrieving XML nucleotide record from https://eutils.ncbi.nlm.nih.gov/entrez/eutils/efetch.fcgi?db=nuccore&id=JQ814272&rettype=gb&retmode=xml";
      HttpGet "https://eutils.ncbi.nlm.nih.gov/entrez/eutils/efetch.fcgi?db=nuccore&id=JQ814272&rettype=gb&retmode=xml";
      Log "Response code: 404";
      Reply "Failed to retrieve XML record"],
     Returns tt).
Proof.
  exact (proj1 (fetch_xml_failure (sample_libraries 404 "") jq814272
                  {| status_code := 404; text := "" |} eq_refl eq_refl)).
Defined.

(** Both fetches answered 200, the record without a primary accession: two
    artifacts, then [UnboundLocalError], and no reply. *)
Lemma fetch_final_reply_witness :
  exists t,
    map mimetype (artifacts t) = ["application/json"; "text/plain"]
    /\ replies t = []
    /\ run (sample_libraries 200 record_without_accession) jq814272
       = (t, Raises unbound_portal_link).
Proof.
  eexists.
  exact (fetch_final_reply (sample_libraries 200 record_without_accession) jq814272
           {| status_code := 200; text := record_without_accession |}
           [("GBSet",
             PDict [("GBSeq", PDict [("GBSeq_definition", PStr "Sample record")])])]
           (PStr "Sample record") PNone PNone
           {| status_code := 200; text := record_without_accession |}
           eq_refl eq_refl eq_refl eq_refl eq_refl eq_refl).
Defined.

(** Both fetches answered 200, the record with a primary accession: the
    final reply ends with the portal sentence. *)
Example fetch_with_accession_replies :
  replies (fst (run (sample_libraries 200 record_with_accession) jq814272))
    = [comparison
       ++ " The record is also available in the NCBI Nucleotide portal at https://www.ncbi.nlm.nih.gov/nuccore/JQ814272"]
  /\ snd (run (sample_libraries 200 record_with_accession) jq814272) = Returns tt.
Proof. split; vm_compute; reflexivity. Qed.

End FetchRuns.

(** * Further properties *)

Lemma logs_app t1 t2 : logs (t1 ++ t2) = (logs t1 ++ logs t2)%list.
Proof. apply flat_map_app. Qed.

(** ** The encoding of the search terms *)

Lemma replace_length old new s : String.length (replace old new s) = String.length s.
Proof. induction s as [|c s IH]; cbn; congruence. Qed.

Lemma replace_get old new s i :
  String.get i (replace old new s)
  = option_map (fun c => if Ascii.eqb c old then new else c) (String.get i s).
Proof.
  revert i; induction s as [|c s IH]; intros [|i]; cbn; auto.
Qed.

Lemma prefix_char (c x : ascii) (rest : string) :
  String.prefix (String c "") (String x rest) = if ascii_dec c x then true else false.
Proof. cbn. destruct (ascii_dec c x); [destruct rest|]; reflexivity. Qed.

Lemma contains_char_append (c : ascii) (a b : string) :
  contains (String c "") (a ++ b) = contains (String c "") a || contains (String c "") b.
Proof.
  induction a as [|x a IH].
  - cbn [append]. destruct b; reflexivity.
  - cbn [append]. change (contains (String c "") (String x (a ++ b)))
      with (String.prefix (String c "") (String x (a ++ b))
            || contains (String c "") (a ++ b)).
    change (contains (String c "") (String x a))
      with (String.prefix (String c "") (String x a) || contains (String c "") a).
    rewrite !prefix_char, IH. apply orb_assoc.
Qed.

Lemma replace_removes (old new : ascii) (s : string) :
  old <> new -> contains (String old "") (replace old new s) = false.
Proof.
  intros Hne. induction s as [|c s IH]; [reflexivity|].
  cbn [replace].
  change (contains (String old "") (String ?x ?r))
    with (String.prefix (String old "") (String x r) || contains (String old "") r).
  rewrite prefix_char, IH.
  destruct (Ascii.eqb_spec c old) as [->|Hc];
    destruct (ascii_dec old _) as [E|_]; try reflexivity; congruence.
Qed.

Section SearchFurther.
Import find_sequence_records.
Variable L : Libraries.
Variable B : BaseModel.

(** X1: the terms sent to the API are the given terms with [+] wherever a
    space stood and every other character in place; neither they nor the
    request URL built from them contain a space. *)
Theorem search_url_has_no_space parameters :
  (forall i,
     String.get i (search_terms (encoded parameters))
     = option_map (fun c => if Ascii.eqb c " " then "+"%char else c)
         (String.get i (search_terms parameters)))
  /\ String.length (search_terms (encoded parameters))
     = String.length (search_terms parameters)
  /\ contains " " (search_terms (encoded parameters)) = false
  /\ contains " " (search_url (encoded parameters)) = false.
Proof.
  unfold encoded, search_url. cbn [search_terms].
  split; [intros i; apply replace_get|].
  split; [apply replace_length|].
  assert (H : contains " " (replace " " "+" (search_terms parameters)) = false)
    by (apply replace_removes; discriminate).
  split; [exact H|].
  rewrite contains_char_append, H. reflexivity.
Qed.

Lemma no_match_events_logs_only results :
  requests (no_match_events results) = [].
Proof.
  unfold no_match_events.
  destruct (count results =? 0)%Z; [|reflexivity].
  destruct (negb _), (negb _); reflexivity.
Qed.

(** X2: whatever the network and the parser do, a search makes exactly one
    HTTP request, to the search URL with the encoded terms. *)
Theorem search_makes_one_request parameters :
  requests (fst (run L B parameters)) = [search_url (encoded parameters)].
Proof.
  rewrite run_eq.
  destruct (http_get L _) as [response|e]; [|reflexivity].
  destruct (negb (is_success response)); [reflexivity|].
  destruct (_parse_search_results L B (text response)) as [results|e].
  - rewrite report_eq. cbn [fst].
    rewrite !requests_app, no_match_events_logs_only.
    destruct (existsb _ _); reflexivity.
  - destruct (isinstance e DefusedXmlException);
      [|destruct (isinstance e ValueError)]; reflexivity.
Qed.

(** X3: whatever the network and the parser do, a search creates at most one
    artifact and sends at most one reply, and it only replies when it has
    created its artifact. *)
Theorem search_at_most_one_artifact parameters :
  List.length (artifacts (fst (run L B parameters))) <= 1
  /\ List.length (replies (fst (run L B parameters))) <= 1
  /\ (replies (fst (run L B parameters)) <> [] ->
      List.length (artifacts (fst (run L B parameters))) = 1).
Proof.
  rewrite run_eq.
  destruct (http_get L _) as [response|e];
    [|cbn; repeat split; try lia; intros H; now elim H].
  destruct (negb (is_success response));
    [cbn; repeat split; try lia; intros H; now elim H|].
  destruct (_parse_search_results L B (text response)) as [results|e].
  - rewrite report_eq. cbn [fst].
    destruct (no_match_events_quiet results) as [Ha Hr].
    rewrite !artifacts_app, !replies_app, Ha, Hr.
    destruct (existsb _ _); cbn; repeat split; lia.
  - destruct (isinstance e DefusedXmlException);
      [|destruct (isinstance e ValueError)];
      cbn; repeat split; try lia; intros H; now elim H.
Qed.

(** X4: the log of a search that reaches the success path: the request
    line alone when there are matches; with [count = 0], the no-match line
    after it, then NCBI's errors and warnings, each on a line of its own
    and only when there are any. The artifact is created either way. *)
Theorem search_success_log parameters response results :
  http_get L (search_url (encoded parameters)) = Returns response ->
  is_success response = true ->
  _parse_search_results L B (text response) = Returns results ->
  logs (fst (run L B parameters)) =
    ("Sending GET request to " ++ search_url (encoded parameters))
    :: (if (count results =? 0)%Z then
          "No matching records found in the NCBI Nucleotide database."
          :: List.app
               match errors results with
               | [] => []
               | _ :: _ => ["NCBI reported: " ++ String.concat ", " (errors results)]
               end
               match warnings results with
               | [] => []
               | _ :: _ => ["Note: " ++ String.concat ", " (warnings results)]
               end
        else [])
  /\ List.length (artifacts (fst (run L B parameters))) = 1.
Proof.
  intros Hget Hok Hresults.
  rewrite run_eq, Hget, Hok, Hresults. cbn [negb fst].
  rewrite report_eq. cbn [fst].
  destruct (no_match_events_quiet results) as [Ha _].
  rewrite !logs_app, !artifacts_app, Ha.
  split.
  - unfold no_match_events.
    destruct (count results =? 0)%Z;
      [destruct (errors results), (warnings results)|];
      destruct (existsb _ _); reflexivity.
  - destruct (existsb _ _); reflexivity.
Qed.

(** *** What the normalizer returns *)

Lemma errors_of_shape data errs :
  errors_of L data = Returns errs ->
  errs = [] \/ exists phrase, errs = ["Phrase not found: " ++ phrase].
Proof.
  unfold errors_of.
  destruct (py_get data "ErrorList") as [error_list|e]; cbn [obind]; [|discriminate].
  destruct (truthy error_list); [|intros H; injection H as <-; now left].
  destruct (py_get error_list "PhraseNotFound") as [pnf|e]; cbn [obind]; [|discriminate].
  destruct (truthy pnf); [|intros H; injection H as <-; now left].
  destruct (py_len pnf) as [n|e]; cbn [obind]; [|discriminate].
  destruct (n <=? 100); cbn [obind].
  - intros H; injection H as <-. right. eexists; reflexivity.
  - destruct (py_slice_to 100 pnf) as [head|e]; cbn [obind]; [|discriminate].
    destruct (py_add_str head "...") as [phrase|e]; cbn [obind]; [|discriminate].
    intros H; injection H as <-. right. eexists; reflexivity.
Qed.

Lemma warnings_of_shape data wl :
  warnings_of data = Returns wl -> List.length wl <= 1.
Proof.
  unfold warnings_of.
  destruct (py_get data "WarningList") as [warning_list|e]; cbn [obind]; [|discriminate].
  destruct (truthy warning_list); [|intros H; injection H as <-; cbn; lia].
  destruct (py_get warning_list "OutputMessage") as [om|e]; cbn [obind]; [|discriminate].
  destruct (truthy om); intros H; injection H as <-; cbn; lia.
Qed.

Lemma all_str_map wl ws : all_str wl = Some ws -> wl = map PStr ws.
Proof.
  revert ws; induction wl as [|v wl IH]; cbn; intros ws H.
  - injection H as <-. reflexivity.
  - destruct v as [|s|l|d]; try discriminate.
    destruct (all_str wl) as [ss|]; [|discriminate].
    injection H as <-. cbn. f_equal. apply IH. reflexivity.
Qed.

Lemma normalizer_errors_shape xml results :
  _parse_search_results L B xml = Returns results ->
  errors results = []
  \/ exists phrase, errors results = ["Phrase not found: " ++ phrase].
Proof.
  unfold _parse_search_results.
  destruct (xmltodict_parse L xml) as [parsed|e]; cbn [obind]; [|discriminate].
  destruct (negb (truthy (dict_get parsed "eSearchResult"))); [discriminate|].
  destruct (errors_of L _) as [errs|e] eqn:Herrs; cbn [obind]; [|discriminate].
  destruct (warnings_of _) as [wl|e]; cbn [obind]; [|discriminate].
  destruct (int_field L _ "Count") as [c|e]; cbn [obind]; [|discriminate].
  destruct (int_field L _ "RetStart") as [p|e]; cbn [obind]; [|discriminate].
  destruct (int_field L _ "RetMax") as [ps|e]; cbn [obind]; [|discriminate].
  unfold SearchResults_init.
  destruct (all_str wl) as [ws|]; [|discriminate].
  intros H; injection H as <-. exact (errors_of_shape _ _ Herrs).
Qed.

(** X5: every result the normalizer returns has an empty [sequence_ids],
    at most one warning, and an [errors] list that is empty or the single
    string "Phrase not found: ..." *)
Theorem normalizer_result_shape xml results :
  _parse_search_results L B xml = Returns results ->
  sequence_ids results = []
  /\ (errors results = []
      \/ exists phrase, errors results = ["Phrase not found: " ++ phrase])
  /\ List.length (warnings results) <= 1.
Proof.
  unfold _parse_search_results.
  destruct (xmltodict_parse L xml) as [parsed|e]; cbn [obind]; [|discriminate].
  destruct (negb (truthy (dict_get parsed "eSearchResult"))); [discriminate|].
  destruct (errors_of L _) as [errs|e] eqn:Herrs; cbn [obind]; [|discriminate].
  destruct (warnings_of _) as [wl|e] eqn:Hwarn; cbn [obind]; [|discriminate].
  destruct (int_field L _ "Count") as [c|e]; cbn [obind]; [|discriminate].
  destruct (int_field L _ "RetStart") as [p|e]; cbn [obind]; [|discriminate].
  destruct (int_field L _ "RetMax") as [ps|e]; cbn [obind]; [|discriminate].
  unfold SearchResults_init.
  destruct (all_str wl) as [ws|] eqn:Hall; [|discriminate].
  intros H; injection H as <-. cbn [sequence_ids errors warnings].
  split; [reflexivity|]. split; [exact (errors_of_shape _ _ Herrs)|].
  apply warnings_of_shape in Hwarn. apply all_str_map in Hall. subst wl.
  rewrite length_map in Hwarn. exact Hwarn.
Qed.

(** X6: on the success path the advisory reply is sent exactly when the
    normalizer recorded an error: every error it records starts with
    "Phrase not found". *)
Theorem search_replies_iff_errors parameters response results :
  http_get L (search_url (encoded parameters)) = Returns response ->
  is_success response = true ->
  _parse_search_results L B (text response) = Returns results ->
  replies (fst (run L B parameters))
  = match errors results with
    | [] => []
    | _ :: _ => [advisory]
    end.
Proof.
  intros Hget Hok Hresults.
  rewrite run_eq, Hget, Hok, Hresults. cbn [negb fst].
  rewrite report_eq. cbn [fst].
  destruct (no_match_events_quiet results) as [_ Hr].
  rewrite !replies_app, Hr.
  destruct (normalizer_errors_shape _ _ Hresults) as [-> | [phrase ->]];
    reflexivity.
Qed.

(** X7: a non-empty text value of [WarningList.OutputMessage] is the one
    entry of [warnings], unchanged. *)
Theorem normalizer_output_message xml parsed data warning_list s :
  xmltodict_parse L xml = Returns parsed ->
  lookup "eSearchResult" parsed = Some (PDict data) ->
  lookup "WarningList" data = Some (PDict warning_list) ->
  lookup "OutputMessage" warning_list = Some (PStr s) ->
  s <> "" ->
  warnings_of (PDict data) = Returns [PStr s]
  /\ forall errs c p ps,
       errors_of L (PDict data) = Returns errs ->
       int_field L (PDict data) "Count" = Returns c ->
       int_field L (PDict data) "RetStart" = Returns p ->
       int_field L (PDict data) "RetMax" = Returns ps ->
       _parse_search_results L B xml =
         Returns {| count := c; page := p; page_size := ps; sequence_ids := [];
                    errors := errs; warnings := [s] |}.
Proof.
  intros Hparse Hroot Hlist Hmessage Hne.
  assert (Hwarn : warnings_of (PDict data) = Returns [PStr s]).
  { unfold warnings_of, py_get. rewrite Hlist. cbn [obind].
    rewrite (lookup_some_truthy _ _ _ Hmessage), Hmessage. cbn [obind truthy].
    rewrite (eqb_empty_false s Hne). reflexivity. }
  split; [exact Hwarn|].
  intros errs c p ps Herrs Hc Hp Hps.
  apply (normalizer_returns L B xml parsed data errs [PStr s] [s]);
    try assumption; try reflexivity.
  intros ->. discriminate.
Qed.

(** X8: an [ErrorList] without [PhraseNotFound] (whatever else it holds)
    leaves [errors] empty. *)
Theorem normalizer_ignores_other_errors data error_list :
  lookup "ErrorList" data = Some (PDict error_list) ->
  lookup "PhraseNotFound" error_list = None ->
  errors_of L (PDict data) = Returns [].
Proof.
  intros Hlist Habsent. unfold errors_of, py_get.
  rewrite Hlist. cbn [obind]. rewrite Habsent.
  destruct (truthy (PDict error_list)); reflexivity.
Qed.

(** *** Failures of the normalizer in [run] *)

Lemma run_logs_value_error parameters response e :
  http_get L (search_url (encoded parameters)) = Returns response ->
  is_success response = true ->
  _parse_search_results L B (text response) = Raises e ->
  isinstance e DefusedXmlException = false ->
  isinstance e ValueError = true ->
  run L B parameters =
    ((request_events parameters ++ [Log (exn_str e)])%list, Returns tt).
Proof.
  intros Hget Hok Hraise Hd Hv.
  rewrite run_eq, Hget, Hok, Hraise, Hd, Hv. reflexivity.
Qed.

Lemma run_lets_through parameters response e :
  http_get L (search_url (encoded parameters)) = Returns response ->
  is_success response = true ->
  _parse_search_results L B (text response) = Raises e ->
  isinstance e ValueError = false ->
  run L B parameters = (request_events parameters, Raises e).
Proof.
  intros Hget Hok Hraise Hv.
  rewrite run_eq, Hget, Hok, Hraise, Hv.
  destruct (isinstance e DefusedXmlException) eqn:Hd; [|reflexivity].
  apply defused_is_value_error in Hd. congruence.
Qed.

(** X9: when [OutputMessage] is there but is not text (several
    [OutputMessage] elements parse to a list), building [SearchResults]
    fails validation; [run] logs the validation error and returns without
    an artifact. *)
Theorem search_rejects_non_text_warning parameters response parsed data
    warning_list v errs c p ps :
  http_get L (search_url (encoded parameters)) = Returns response ->
  is_success response = true ->
  xmltodict_parse L (text response) = Returns parsed ->
  lookup "eSearchResult" parsed = Some (PDict data) ->
  lookup "WarningList" data = Some (PDict warning_list) ->
  lookup "OutputMessage" warning_list = Some v ->
  truthy v = true ->
  (forall s, v <> PStr s) ->
  errors_of L (PDict data) = Returns errs ->
  int_field L (PDict data) "Count" = Returns c ->
  int_field L (PDict data) "RetStart" = Returns p ->
  int_field L (PDict data) "RetMax" = Returns ps ->
  _parse_search_results L B (text response)
  = Raises (Exn ValidationError (validation_error_str B [v]))
  /\ run L B parameters =
       ((request_events parameters ++ [Log (validation_error_str B [v])])%list,
        Returns tt)
  /\ artifacts (fst (run L B parameters)) = [].
Proof.
  intros Hget Hok Hparse Hroot Hlist Hmessage Htruthy Hnot Herrs Hc Hp Hps.
  assert (Hraise : _parse_search_results L B (text response)
                   = Raises (Exn ValidationError (validation_error_str B [v]))).
  { unfold _parse_search_results, dict_get. rewrite Hparse. cbn [obind].
    rewrite Hroot, (lookup_some_truthy _ _ _ Hlist). cbn [negb].
    rewrite Herrs. cbn [obind].
    unfold warnings_of, py_get. rewrite Hlist. cbn [obind].
    rewrite (lookup_some_truthy _ _ _ Hmessage), Hmessage. cbn [obind].
    rewrite Htruthy, Hc, Hp, Hps. cbn [obind].
    unfold SearchResults_init.
    destruct v as [|s|l|d]; try reflexivity. elim (Hnot s). reflexivity. }
  split; [exact Hraise|].
  assert (Hrun := run_logs_value_error parameters response _ Hget Hok Hraise
                    eq_refl eq_refl).
  split; [exact Hrun|]. rewrite Hrun. reflexivity.
Qed.

(** X10: a root that holds text only (or anything that is neither falsy
    nor a mapping) makes the normalizer raise [AttributeError], which [run]
    does not catch: it leaves [run], with no artifact and nothing logged
    about it. *)
Theorem search_crashes_on_text_root parameters response parsed v :
  http_get L (search_url (encoded parameters)) = Returns response ->
  is_success response = true ->
  xmltodict_parse L (text response) = Returns parsed ->
  lookup "eSearchResult" parsed = Some v ->
  truthy v = true ->
  (forall d, v <> PDict d) ->
  run L B parameters =
    (request_events parameters,
     Raises (Exn AttributeError
               ("'" ++ type_name v ++ "' object has no attribute 'get'"))).
Proof.
  intros Hget Hok Hparse Hroot Htruthy Hnot.
  apply run_lets_through with (response := response); auto.
  unfold _parse_search_results, dict_get. rewrite Hparse. cbn [obind].
  rewrite Hroot, Htruthy. cbn [negb].
  destruct v as [|s|l|d]; try reflexivity. elim (Hnot d). reflexivity.
Qed.

(** X11: when [Count] is text that [int] does not read, [run] logs the
    [ValueError] of [int] and returns without an artifact. *)
Theorem search_logs_bad_count parameters response parsed data errs wl s :
  http_get L (search_url (encoded parameters)) = Returns response ->
  is_success response = true ->
  xmltodict_parse L (text response) = Returns parsed ->
  lookup "eSearchResult" parsed = Some (PDict data) ->
  errors_of L (PDict data) = Returns errs ->
  warnings_of (PDict data) = Returns wl ->
  lookup "Count" data = Some (PStr s) ->
  int_of_str s = None ->
  exists message,
    py_int L (PStr s) = Raises (Exn ValueError message)
    /\ run L B parameters =
         ((request_events parameters ++ [Log message])%list, Returns tt)
    /\ artifacts (fst (run L B parameters)) = [].
Proof.
  intros Hget Hok Hparse Hroot Herrs Hwarn Hcount Hbad.
  destruct (py_int_non_numeric L s Hbad) as [message Hint].
  exists message. split; [exact Hint|].
  assert (Hraise : _parse_search_results L B (text response)
                   = Raises (Exn ValueError message)).
  { unfold _parse_search_results, dict_get. rewrite Hparse. cbn [obind].
    rewrite Hroot, (lookup_some_truthy _ _ _ Hcount). cbn [negb].
    rewrite Herrs, Hwarn. cbn [obind]. unfold int_field.
    rewrite Hcount, Hint. reflexivity. }
  assert (Hrun := run_logs_value_error parameters response _ Hget Hok Hraise
                    eq_refl eq_refl).
  split; [exact Hrun|]. rewrite Hrun. reflexivity.
Qed.

(** X12: when [Count] is there without text (an empty [Count] element is
    [None]) or is not text at all, [int] raises [TypeError], which [run]
    does not catch. *)
Theorem search_crashes_on_empty_count parameters response parsed data errs wl v :
  http_get L (search_url (encoded parameters)) = Returns response ->
  is_success response = true ->
  xmltodict_parse L (text response) = Returns parsed ->
  lookup "eSearchResult" parsed = Some (PDict data) ->
  errors_of L (PDict data) = Returns errs ->
  warnings_of (PDict data) = Returns wl ->
  lookup "Count" data = Some v ->
  (forall s, v <> PStr s) ->
  run L B parameters =
    (request_events parameters,
     Raises (Exn TypeError
               ("int() argument must be a string, a bytes-like object or a real number, not '"
                ++ type_name v ++ "'"))).
Proof.
  intros Hget Hok Hparse Hroot Herrs Hwarn Hcount Hnot.
  apply run_lets_through with (response := response); auto.
  unfold _parse_search_results, dict_get. rewrite Hparse. cbn [obind].
  rewrite Hroot, (lookup_some_truthy _ _ _ Hcount). cbn [negb].
  rewrite Herrs, Hwarn. cbn [obind]. unfold int_field. rewrite Hcount.
  destruct v as [|s|l|d]; try reflexivity. elim (Hnot s). reflexivity.
Qed.

(** X13: an exception of the HTTP client leaves [run] as it is, after the
    request line was logged; nothing else has happened. *)
Theorem search_transport_exception parameters e :
  http_get L (search_url (encoded parameters)) = Raises e ->
  run L B parameters = (request_events parameters, Raises e)
  /\ logs (fst (run L B parameters))
     = ["Sending GET request to " ++ search_url (encoded parameters)]
  /\ artifacts (fst (run L B parameters)) = []
  /\ replies (fst (run L B parameters)) = [].
Proof.
  intros Hget. rewrite run_eq, Hget. repeat split.
Qed.
End SearchFurther.

(** ** The record fetch, path by path *)

(** [d.get(key)] on a metadata dict. *)
Fixpoint meta_get (key : string) (d : list (string * meta)) : option meta :=
  match d with
  | [] => None
  | (k, v) :: d' => if String.eqb k key then Some v else meta_get key d'
  end.

Lemma meta_get_dict_set d key value k :
  meta_get k (dict_set d key value)
  = if String.eqb key k then Some value else meta_get k d.
Proof.
  induction d as [|[k0 v0] d IH]; cbn.
  - reflexivity.
  - destruct (String.eqb_spec k0 key) as [->|Hne]; cbn.
    + destruct (String.eqb key k); reflexivity.
    + rewrite IH. destruct (String.eqb_spec k0 k) as [->|Hk]; [|reflexivity].
      destruct (String.eqb_spec key k) as [->|_]; [congruence|reflexivity].
Qed.

Section FetchFurther.
Import get_sequence_record.
Variable L : Libraries.

(** What [run] has emitted when the response of the XML fetch arrives. *)
Definition xml_request_events (parameters : Parameters) : list event :=
  [BeginProcess "Searching the NCBI Nucleotide database";
   Log ("Retrieving XML nucleotide record from " ++ xml_url parameters);
   HttpGet (xml_url parameters)].

(** What it has emitted when the response of the flat-file fetch arrives:
    the first artifact is out. *)
Definition flat_request_events (parameters : Parameters) (json_record : dict)
    (definition accession version : pyval) : list event :=
  (xml_request_events parameters
   ++ [Log "Converting XML record to JSON"]
   ++ (if truthy accession then
         [Log ("An online version of the record is available at "
               ++ "https://www.ncbi.nlm.nih.gov/nuccore/" ++ py_str L accession)]
       else [])
   ++ [CreateArtifact
         {| mimetype := "application/json";
            description := "JSON nucleotide sequence record "
                           ++ accession_number parameters ++ ": "
                           ++ py_str L definition;
            content := Some (utf8_encode (json_dumps L (PDict json_record)));
            uris := None;
            metadata := dict_or (record_metadata L accession version)
                          [("derived_from", MVal (PStr (xml_url parameters)))] |};
       Log ("Retrieving flat file nucleotide record from " ++ flat_file_url parameters);
       HttpGet (flat_file_url parameters)])%list.

(** The second artifact. *)
Definition flat_file_artifact (parameters : Parameters)
    (definition accession version : pyval) : artifact :=
  {| mimetype := "text/plain";
     description := "Flat file nucleotide sequence record "
                    ++ accession_number parameters ++ ": " ++ py_str L definition;
     content := None;
     uris := Some [flat_file_url parameters];
     metadata := record_metadata L accession version |}.

Lemma fetch_run_eq parameters :
  run L parameters =
    match http_get L (xml_url parameters) with
    | Raises e => (xml_request_events parameters, Raises e)
    | Returns response =>
        if negb (is_success response) then
          ((xml_request_events parameters
            ++ [Log ("Response code: " ++ str_of_int (status_code response));
                Reply "Failed to retrieve XML record"])%list,
           Returns tt)
        else
          match (let! json_record := xmltodict_parse L (text response) in
                 let! fields := record_fields json_record in
                 Returns (json_record, fields)) with
          | Raises e =>
              ((xml_request_events parameters
                ++ [Log "Converting XML record to JSON"])%list,
               Raises e)
          | Returns (json_record, (definition, accession, version)) =>
              let t := flat_request_events parameters json_record
                         definition accession version in
              match http_get L (flat_file_url parameters) with
              | Raises e => (t, Raises e)
              | Returns flat =>
                  if negb (is_success flat) then
                    ((t ++ [Log ("Response code: " ++ str_of_int (status_code flat));
                            Reply "Failed to retrieve flat file record"])%list,
                     Returns tt)
                  else if truthy accession then
                    ((t ++ [CreateArtifact
                              (flat_file_artifact parameters definition accession version);
                            Reply (comparison
                                   ++ portal_sentence
                                        ("https://www.ncbi.nlm.nih.gov/nuccore/"
                                         ++ py_str L accession))])%list,
                     Returns tt)
                  else
                    ((t ++ [CreateArtifact
                              (flat_file_artifact parameters definition accession version)])%list,
                     Raises unbound_portal_link)
              end
          end
    end.
Proof.
  unfold run, get, begin_process, log, reply, create_artifact, emit, lift, bind, ret.
  unfold xml_request_events.
  destruct (http_get L (xml_url parameters)) as [response|e]; [|reflexivity].
  destruct (negb (is_success response)); [reflexivity|].
  destruct (xmltodict_parse L (text response)) as [json_record|e];
    cbn [obind]; [|reflexivity].
  destruct (record_fields json_record) as [[[definition accession] version]|e];
    cbn [obind]; [|reflexivity].
  unfold flat_request_events, flat_file_artifact, record_metadata, xml_request_events,
    flat_file_step, get, log, reply, create_artifact, emit, bind, raise.
  destruct (truthy accession), (truthy version);
    destruct (http_get L (flat_file_url parameters)) as [flat|e]; try reflexivity;
    destruct (negb (is_success flat)); reflexivity.
Qed.

Lemma flat_request_events_observed parameters json_record definition accession version :
  let t := flat_request_events parameters json_record definition accession version in
  requests t = [xml_url parameters; flat_file_url parameters]
  /\ map mimetype (artifacts t) = ["application/json"]
  /\ replies t = [].
Proof.
  unfold flat_request_events. destruct (truthy accession); repeat split.
Qed.

(** X14: when the XML fetch succeeds and the flat-file fetch is answered
    with a non-2xx status, [run] logs the status, sends the one failure
    reply and returns; the JSON artifact, created before, is the only
    artifact. *)
Theorem fetch_flat_file_failure parameters xml_response json_record
    definition accession version flat_response :
  http_get L (xml_url parameters) = Returns xml_response ->
  is_success xml_response = true ->
  xmltodict_parse L (text xml_response) = Returns json_record ->
  record_fields json_record = Returns (definition, accession, version) ->
  http_get L (flat_file_url parameters) = Returns flat_response ->
  is_success flat_response = false ->
  run L parameters =
    ((flat_request_events parameters json_record definition accession version
      ++ [Log ("Response code: " ++ str_of_int (status_code flat_response));
          Reply "Failed to retrieve flat file record"])%list,
     Returns tt)
  /\ map mimetype (artifacts (fst (run L parameters))) = ["application/json"]
  /\ replies (fst (run L parameters)) = ["Failed to retrieve flat file record"]
  /\ requests (fst (run L parameters))
     = [xml_url parameters; flat_file_url parameters].
Proof.
  intros Hxml Hok Hparse Hfields Hflat Hfail.
  rewrite fetch_run_eq, Hxml, Hok, Hparse. cbn [negb obind].
  rewrite Hfields. cbn [obind]. cbv zeta. rewrite Hflat, Hfail. cbn [negb fst].
  destruct (flat_request_events_observed parameters json_record definition
              accession version) as [Hreq [Hart Hrep]].
  rewrite artifacts_app, replies_app, requests_app, map_app, Hreq, Hart, Hrep.
  repeat split.
Qed.

(** X15: the record fetch has no handler around the parser: whatever
    exception [xmltodict.parse] raises on the XML response leaves [run],
    before any artifact or reply. *)
Theorem fetch_parser_exception parameters response e :
  http_get L (xml_url parameters) = Returns response ->
  is_success response = true ->
  xmltodict_parse L (text response) = Raises e ->
  run L parameters =
    ((xml_request_events parameters ++ [Log "Converting XML record to JSON"])%list,
     Raises e)
  /\ artifacts (fst (run L parameters)) = []
  /\ replies (fst (run L parameters)) = [].
Proof.
  intros Hxml Hok Hraise.
  rewrite fetch_run_eq, Hxml, Hok, Hraise. repeat split.
Qed.

(** X16: a parsed record whose [GBSet], or whose [GBSeq] inside it, is there
    but is no mapping (an empty element is [None], a repeated [GBSeq] is a
    list) makes [run] raise [AttributeError] before any artifact. *)
Theorem fetch_crashes_without_mapping parameters response json_record v :
  http_get L (xml_url parameters) = Returns response ->
  is_success response = true ->
  xmltodict_parse L (text response) = Returns json_record ->
  (lookup "GBSet" json_record = Some v
   \/ exists gbset,
        lookup "GBSet" json_record = Some (PDict gbset)
        /\ lookup "GBSeq" gbset = Some v) ->
  (forall d, v <> PDict d) ->
  run L parameters =
    ((xml_request_events parameters ++ [Log "Converting XML record to JSON"])%list,
     Raises (Exn AttributeError
               ("'" ++ type_name v ++ "' object has no attribute 'get'")))
  /\ artifacts (fst (run L parameters)) = [].
Proof.
  intros Hxml Hok Hparse Hshape Hnot.
  assert (Hfields : record_fields json_record
                    = Raises (Exn AttributeError
                                ("'" ++ type_name v ++ "' object has no attribute 'get'"))).
  { unfold record_fields.
    destruct Hshape as [Hset | [gbset [Hset Hseq]]]; rewrite Hset.
    - destruct v as [|s|l|d]; try reflexivity. elim (Hnot d). reflexivity.
    - cbn [py_get_or obind]. rewrite Hseq.
      destruct v as [|s|l|d]; try reflexivity. elim (Hnot d). reflexivity. }
  rewrite fetch_run_eq, Hxml, Hok, Hparse. cbn [negb obind].
  rewrite Hfields. repeat split.
Qed.

(** X17: with both fetches answered 2xx, the two artifacts carry the same
    metadata except for [derived_from], which only the JSON artifact has
    and which is the XML request URL. *)
Theorem fetch_artifacts_share_metadata parameters xml_response json_record
    definition accession version flat_response :
  http_get L (xml_url parameters) = Returns xml_response ->
  is_success xml_response = true ->
  xmltodict_parse L (text xml_response) = Returns json_record ->
  record_fields json_record = Returns (definition, accession, version) ->
  http_get L (flat_file_url parameters) = Returns flat_response ->
  is_success flat_response = true ->
  exists json_artifact flat_artifact,
    artifacts (fst (run L parameters)) = [json_artifact; flat_artifact]
    /\ meta_get "derived_from" (metadata json_artifact)
       = Some (MVal (PStr (xml_url parameters)))
    /\ meta_get "derived_from" (metadata flat_artifact) = None
    /\ forall key, key <> "derived_from" ->
         meta_get key (metadata json_artifact) = meta_get key (metadata flat_artifact).
Proof.
  intros Hxml Hok Hparse Hfields Hflat Hok'.
  exists {| mimetype := "application/json";
            description := "JSON nucleotide sequence record "
                           ++ accession_number parameters ++ ": "
                           ++ py_str L definition;
            content := Some (utf8_encode (json_dumps L (PDict json_record)));
            uris := None;
            metadata := dict_or (record_metadata L accession version)
                          [("derived_from", MVal (PStr (xml_url parameters)))] |},
         (flat_file_artifact parameters definition accession version).
  split.
  - rewrite fetch_run_eq, Hxml, Hok, Hparse. cbn [negb obind].
    rewrite Hfields. cbn [obind]. cbv zeta. rewrite Hflat, Hok'. cbn [negb].
    unfold flat_request_events. destruct (truthy accession), (truthy version); reflexivity.
  - cbn [metadata flat_file_artifact]. unfold dict_or. cbn [fold_left fst snd].
    split; [rewrite meta_get_dict_set; reflexivity|].
    split.
    + unfold record_metadata.
      destruct (truthy accession), (truthy version); reflexivity.
    + intros key Hkey. rewrite meta_get_dict_set.
      destruct (String.eqb_spec "derived_from" key) as [E|_]; [congruence|reflexivity].
Qed.

(** X18: with both fetches answered 2xx, the metadata of the artifacts has
    [data_source] always, [primary_accession] and the portal link exactly
    when the primary accession is truthy, and [accession_version] exactly
    when the accession version is. *)
Theorem fetch_metadata_keys parameters xml_response json_record
    definition accession version flat_response :
  http_get L (xml_url parameters) = Returns xml_response ->
  is_success xml_response = true ->
  xmltodict_parse L (text xml_response) = Returns json_record ->
  record_fields json_record = Returns (definition, accession, version) ->
  http_get L (flat_file_url parameters) = Returns flat_response ->
  is_success flat_response = true ->
  exists json_artifact flat_artifact,
    artifacts (fst (run L parameters)) = [json_artifact; flat_artifact]
    /\ forall a, a = json_artifact \/ a = flat_artifact ->
         meta_get "data_source" (metadata a) = Some (MVal (PStr "Nucleotide"))
         /\ meta_get "primary_accession" (metadata a)
            = (if truthy accession then Some (MVal accession) else None)
         /\ meta_get "link_to_view_record_on_ncbi_portal" (metadata a)
            = (if truthy accession then
                 Some (MVal (PStr ("https://www.ncbi.nlm.nih.gov/nuccore/"
                                   ++ py_str L accession)))
               else None)
         /\ meta_get "accession_version" (metadata a)
            = (if truthy version then Some (MVal version) else None).
Proof.
  intros Hxml Hok Hparse Hfields Hflat Hok'.
  exists {| mimetype := "application/json";
            description := "JSON nucleotide sequence record "
                           ++ accession_number parameters ++ ": "
                           ++ py_str L definition;
            content := Some (utf8_encode (json_dumps L (PDict json_record)));
            uris := None;
            metadata := dict_or (record_metadata L accession version)
                          [("derived_from", MVal (PStr (xml_url parameters)))] |},
         (flat_file_artifact parameters definition accession version).
  split.
  - rewrite fetch_run_eq, Hxml, Hok, Hparse. cbn [negb obind].
    rewrite Hfields. cbn [obind]. cbv zeta. rewrite Hflat, Hok'. cbn [negb].
    unfold flat_request_events. destruct (truthy accession), (truthy version); reflexivity.
  - intros a [-> | ->]; cbn [metadata flat_file_artifact];
      unfold dict_or, record_metadata; cbn [fold_left fst snd];
      destruct (truthy accession), (truthy version); repeat split.
Qed.

(** The events up to the flat-file request end with the JSON artifact, the
    log line of the flat-file fetch and the request itself; before them
    there is the XML request and no artifact or reply. *)
Lemma flat_request_events_split parameters json_record definition accession version :
  exists before a,
    flat_request_events parameters json_record definition accession version
    = (before
       ++ [CreateArtifact a;
           Log ("Retrieving flat file nucleotide record from "
                ++ flat_file_url parameters);
           HttpGet (flat_file_url parameters)])%list
    /\ mimetype a = "application/json"
    /\ requests before = [xml_url parameters]
    /\ artifacts before = []
    /\ replies before = [].
Proof.
  unfold flat_request_events.
  set (link := if truthy accession then _ else _).
  exists (xml_request_events parameters
          ++ [Log "Converting XML record to JSON"] ++ link)%list.
  eexists. split; [rewrite <- !app_assoc; reflexivity|].
  subst link. destruct (truthy accession); repeat split.
Qed.

(** What follows the flat-file request adds no request, no JSON artifact,
    and at most one artifact and one reply. *)
Lemma after_flat_request_bounds parameters json_record definition accession version after :
  requests after = [] ->
  (forall b, In b (artifacts after) -> mimetype b = "text/plain") ->
  List.length (artifacts after) <= 1 ->
  List.length (replies after) <= 1 ->
  let t := (flat_request_events parameters json_record definition accession version
            ++ after)%list in
  (requests t = [xml_url parameters; flat_file_url parameters]
   /\ exists before a after',
        t = (before
             ++ [CreateArtifact a;
                 Log ("Retrieving flat file nucleotide record from "
                      ++ flat_file_url parameters);
                 HttpGet (flat_file_url parameters)]
             ++ after')%list
        /\ mimetype a = "application/json"
        /\ requests before = [xml_url parameters]
        /\ artifacts before = []
        /\ requests after' = []
        /\ forall b, In b (artifacts after') -> mimetype b = "text/plain")
  /\ List.length (artifacts t) <= 2
  /\ List.length (replies t) <= 1.
Proof.
  intros Hreq Hplain Harts Hreps t. subst t.
  destruct (flat_request_events_split parameters json_record definition
              accession version) as (before & a & -> & Hmime & Hbreq & Hbart & Hbrep).
  rewrite !requests_app, !artifacts_app, !replies_app, Hbreq, Hbart, Hbrep, Hreq.
  cbn [requests artifacts replies flat_map List.app List.length].
  repeat split; try lia.
  exists before, a, after. rewrite <- app_assoc. repeat split; assumption.
Qed.

(** X19: whatever the network and the parser do, a record fetch requests
    the XML URL first and then at most the flat-file URL, creates at most
    two artifacts and sends at most one reply. When it requests the flat
    file, the event just before the log line of that request is the
    creation of the JSON artifact: nothing was created before it, and what
    is created after the request is a plain-text artifact. *)
Theorem fetch_bounds parameters :
  let t := fst (run L parameters) in
  (requests t = [xml_url parameters]
   \/ (requests t = [xml_url parameters; flat_file_url parameters]
       /\ exists before a after,
            t = (before
                 ++ [CreateArtifact a;
                     Log ("Retrieving flat file nucleotide record from "
                          ++ flat_file_url parameters);
                     HttpGet (flat_file_url parameters)]
                 ++ after)%list
            /\ mimetype a = "application/json"
            /\ requests before = [xml_url parameters]
            /\ artifacts before = []
            /\ requests after = []
            /\ forall b, In b (artifacts after) -> mimetype b = "text/plain"))
  /\ List.length (artifacts t) <= 2
  /\ List.length (replies t) <= 1.
Proof.
  cbv zeta. rewrite fetch_run_eq.
  destruct (http_get L (xml_url parameters)) as [response|e];
    [|cbn; repeat split; auto].
  destruct (negb (is_success response)); [cbn; repeat split; auto|].
  destruct (obind _ _) as [[json_record [[definition accession] version]]|e];
    [|cbn; repeat split; auto].
  cbv zeta.
  assert (Hafter : forall after,
             requests after = [] ->
             (forall b, In b (artifacts after) -> mimetype b = "text/plain") ->
             List.length (artifacts after) <= 1 ->
             List.length (replies after) <= 1 ->
             let t := (flat_request_events parameters json_record definition
                         accession version ++ after)%list in
             (requests t = [xml_url parameters]
              \/ (requests t = [xml_url parameters; flat_file_url parameters]
                  /\ exists before a after',
                       t = (before
                            ++ [CreateArtifact a;
                                Log ("Retrieving flat file nucleotide record from "
                                     ++ flat_file_url parameters);
                                HttpGet (flat_file_url parameters)]
                            ++ after')%list
                       /\ mimetype a = "application/json"
                       /\ requests before = [xml_url parameters]
                       /\ artifacts before = []
                       /\ requests after' = []
                       /\ forall b, In b (artifacts after') -> mimetype b = "text/plain"))
             /\ List.length (artifacts t) <= 2
             /\ List.length (replies t) <= 1).
  { intros after Hreq Hplain Harts Hreps.
    destruct (after_flat_request_bounds parameters json_record definition accession version
                after Hreq Hplain Harts Hreps) as [Hright Hcounts].
    split; [right; exact Hright | exact Hcounts]. }
  destruct (http_get L (flat_file_url parameters)) as [flat|e];
    [destruct (negb (is_success flat)); [|destruct (truthy accession)]|].
  - cbn [fst]. apply Hafter; cbn; auto. intros b [].
  - cbn [fst]. apply Hafter; cbn; auto. intros b [<- | []]. reflexivity.
  - cbn [fst]. apply Hafter; cbn; auto. intros b [<- | []]. reflexivity.
  - cbn [fst]. rewrite <- (app_nil_r (flat_request_events _ _ _ _ _)).
    apply Hafter; cbn; auto. intros b [].
Qed.

(** X20: an exception of the HTTP client leaves [run] as it is: on the XML
    fetch before anything but the request line, on the flat-file fetch
    with the JSON artifact already created and no reply sent. *)
Theorem fetch_transport_exception parameters e :
  (http_get L (xml_url parameters) = Raises e ->
   run L parameters = (xml_request_events parameters, Raises e))
  /\ forall xml_response json_record definition accession version,
       http_get L (xml_url parameters) = Returns xml_response ->
       is_success xml_response = true ->
       xmltodict_parse L (text xml_response) = Returns json_record ->
       record_fields json_record = Returns (definition, accession, version) ->
       http_get L (flat_file_url parameters) = Raises e ->
       run L parameters =
         (flat_request_events parameters json_record definition accession version,
          Raises e)
       /\ map mimetype (artifacts (fst (run L parameters))) = ["application/json"]
       /\ replies (fst (run L parameters)) = [].
Proof.
  split.
  - intros Hxml. rewrite fetch_run_eq, Hxml. reflexivity.
  - intros xml_response json_record definition accession version
      Hxml Hok Hparse Hfields Hflat.
    rewrite fetch_run_eq, Hxml, Hok, Hparse. cbn [negb obind].
    rewrite Hfields. cbn [obind]. cbv zeta. rewrite Hflat. cbn [fst].
    destruct (flat_request_events_observed parameters json_record definition
                accession version) as [_ [Hart Hrep]].
    repeat split; assumption.
Qed.
End FetchFurther.

(** ** The agent facade *)

Section AgentProperties.
Variable L : Libraries.
Variable B : find_sequence_records.BaseModel.

Lemma search_begins_process parameters :
  exists t,
    fst (find_sequence_records.run L B parameters)
    = BeginProcess "Searching the NCBI Nucleotide database" :: t.
Proof.
  rewrite run_eq. unfold request_events.
  destruct (http_get L _) as [response|e]; [|eexists; reflexivity].
  destruct (negb (is_success response)); [eexists; reflexivity|].
  destruct (find_sequence_records._parse_search_results L B (text response)) as [r|e];
    [eexists; reflexivity|].
  destruct (isinstance e DefusedXmlException);
    [|destruct (isinstance e ValueError)]; eexists; reflexivity.
Qed.

Lemma fetch_begins_process parameters :
  exists t,
    fst (get_sequence_record.run L parameters)
    = BeginProcess "Searching the NCBI Nucleotide database" :: t.
Proof.
  rewrite fetch_run_eq. unfold xml_request_events.
  destruct (http_get L (get_sequence_record.xml_url parameters)) as [response|e];
    [|eexists; reflexivity].
  destruct (negb (is_success response)); [eexists; reflexivity|].
  destruct (obind _ _) as [[json_record [[definition accession] version]]|e];
    [|eexists; reflexivity].
  cbv zeta. unfold flat_request_events, xml_request_events.
  destruct (http_get L (get_sequence_record.flat_file_url parameters)) as [flat|e];
    [destruct (negb (is_success flat)); [|destruct (truthy accession)]|];
    eexists; reflexivity.
Qed.

Lemma agent_run_unknown request entrypoint p :
  entrypoint <> "find_sequence_records" ->
  entrypoint <> "get_sequence_record" ->
  agent.run L B request entrypoint p = ([], Raises (Exn ValueError "")).
Proof.
  intros Hfind Hget. unfold agent.run. cbn [AgentEntrypoint.id
    find_sequence_records.entrypoint get_sequence_record.entrypoint].
  apply String.eqb_neq in Hfind, Hget. rewrite Hfind, Hget. reflexivity.
Qed.

(** X21: an entry point id that is neither of the two makes the agent raise
    [ValueError] at once: no process is begun, nothing is requested,
    logged, created or replied. *)
Theorem agent_unknown_entrypoint request entrypoint p :
  entrypoint <> "find_sequence_records" ->
  entrypoint <> "get_sequence_record" ->
  agent.run L B request entrypoint p = ([], Raises (Exn ValueError ""))
  /\ requests (fst (agent.run L B request entrypoint p)) = []
  /\ artifacts (fst (agent.run L B request entrypoint p)) = []
  /\ replies (fst (agent.run L B request entrypoint p)) = [].
Proof.
  intros Hfind Hget. rewrite agent_run_unknown by assumption. repeat split.
Qed.

(** X22: the agent card and the dispatch agree: the ids of the entry points
    the card lists are exactly the ids for which [run] begins a process,
    whatever the request and the parameters; for every other id it emits
    nothing. *)
Theorem agent_card_matches_dispatch entrypoint :
  In entrypoint (map AgentEntrypoint.id (AgentCard.entrypoints agent.get_agent_card))
  <-> forall request p,
        exists t,
          fst (agent.run L B request entrypoint p)
          = BeginProcess "Searching the NCBI Nucleotide database" :: t.
Proof.
  split.
  - intros [<- | [<- | []]] request p; unfold agent.run; cbn [String.eqb Ascii.eqb
      Bool.eqb AgentEntrypoint.id find_sequence_records.entrypoint
      get_sequence_record.entrypoint].
    + destruct p as [q|q|]; cbn [agent.find_sequence_records_run];
        [apply search_begins_process | eexists; reflexivity | eexists; reflexivity].
    + destruct p as [q|q|]; cbn [agent.get_sequence_record_run];
        [eexists; reflexivity | apply fetch_begins_process | eexists; reflexivity].
  - intros Hserved. cbn.
    destruct (String.eqb_spec "find_sequence_records" entrypoint) as [E|Hfind];
      [left; exact E|].
    destruct (String.eqb_spec "get_sequence_record" entrypoint) as [E|Hget];
      [right; left; exact E|].
    destruct (Hserved "" agent.NoParams) as [t Ht].
    rewrite agent_run_unknown in Ht by congruence. discriminate Ht.
Qed.
End AgentProperties.

(** ** The element tree helpers *)

Section ElementTreeProperties.
Import ElementTree.
Import find_sequence_records.

Lemma Element_induction (P : Element -> Prop) :
  (forall t x cs, Forall P cs -> P (Elem t x cs)) -> forall e, P e.
Proof.
  intros H. fix IH 1. intros [t x cs]. apply H.
  induction cs as [|c cs IHcs]; constructor; [apply IH | exact IHcs].
Qed.

(** The elements [iter] yields bear the tag asked for. *)
Lemma iter_bears_tag (wanted : string) (e node : Element) :
  In node (iter wanted e) -> wanted = "*" \/ tag node = wanted.
Proof.
  revert node. induction e as [t x cs IH] using Element_induction. intros node.
  cbn [iter]. rewrite in_app_iff. intros [Hself | Hbelow].
  - destruct (String.eqb_spec wanted "*") as [->|_]; [now left|].
    destruct (String.eqb_spec t wanted) as [<-|_]; cbn in Hself.
    + destruct Hself as [<- | []]. now right.
    + contradiction.
  - apply in_flat_map in Hbelow. destruct Hbelow as [c [Hc Hnode]].
    rewrite Forall_forall in IH. exact (IH c Hc node Hnode).
Qed.

(** X23: a text [_get_property_value_by_tag] returns is the text of an
    element that bears the tag (any element for ["*"]), is the first such
    in document order, and has at least one child; for a first match
    without children, which is what an element holding only text is, the
    function returns [None]. *)
Theorem get_property_value_needs_children (tree : Element) (wanted value : string) :
  _get_property_value_by_tag tree wanted = Some value ->
  exists node rest,
    iter wanted tree = node :: rest
    /\ text node = Some value
    /\ children node <> []
    /\ (wanted = "*" \/ tag node = wanted).
Proof.
  unfold _get_property_value_by_tag.
  destruct (iter wanted tree) as [|node rest] eqn:Hiter; [discriminate|].
  unfold truthy. destruct (children node) as [|c cs] eqn:Hchildren; cbn; [discriminate|].
  intros Htext. exists node, rest. repeat split; try assumption.
  - rewrite Hchildren. discriminate.
  - apply (iter_bears_tag wanted tree). rewrite Hiter. now left.
Qed.

(** X24: [_list_property_values_by_tag] goes through the tree in document
    order: the text of the root when it bears the tag, then the values of
    each child's subtree in turn. *)
Theorem list_property_values_in_document_order (t : string) (x : option string)
    (cs : list Element) (wanted : string) :
  _list_property_values_by_tag (Elem t x cs) wanted
  = ((if String.eqb wanted "*" || String.eqb t wanted then [x] else [])
     ++ flat_map (fun c => _list_property_values_by_tag c wanted) cs)%list.
Proof.
  unfold _list_property_values_by_tag. cbn [iter]. rewrite map_app. f_equal.
  - destruct (String.eqb wanted "*" || String.eqb t wanted); reflexivity.
  - induction cs as [|c cs IH]; cbn; [reflexivity|].
    rewrite map_app, IH. reflexivity.
Qed.

(** X25: the two helpers agree where the first one answers: a text it
    returns is the first entry of the list the second one returns; and
    when the list is empty, it returns [None]. *)
Theorem get_property_value_heads_list (tree : Element) (wanted : string) :
  (forall value,
     _get_property_value_by_tag tree wanted = Some value ->
     exists rest, _list_property_values_by_tag tree wanted = Some value :: rest)
  /\ (_list_property_values_by_tag tree wanted = [] ->
      _get_property_value_by_tag tree wanted = None).
Proof.
  unfold _get_property_value_by_tag, _list_property_values_by_tag.
  destruct (iter wanted tree) as [|node rest]; cbn [map]; split;
    try discriminate; try reflexivity.
  intros value. destruct (truthy node); [|discriminate].
  intros ->. eexists; reflexivity.
Qed.
End ElementTreeProperties.

(** ** More sample runs *)

(** More response texts with what the parser makes of them: a root holding
    text, an empty [Count], two [OutputMessage] elements (a list), an
    [ErrorList] with a [FieldNotFound] only, an empty [GBSet]. *)
Definition more_documents : list (string * outcome dict) :=
  [("<eSearchResult>oops</eSearchResult>", Returns [("eSearchResult", PStr "oops")]);
   ("<eSearchResult><Count/></eSearchResult>",
    Returns [("eSearchResult", PDict [("Count", PNone)])]);
   ("<eSearchResult><Count>0</Count><WarningList><OutputMessage>No items found.</OutputMessage><OutputMessage>Check spelling.</OutputMessage></WarningList></eSearchResult>",
    Returns [("eSearchResult",
              PDict [("Count", PStr "0");
                     ("WarningList",
                      PDict [("OutputMessage",
                              PList [PStr "No items found.";
                                     PStr "Check spelling."])])])]);
   ("<GBSet/>", Returns [("GBSet", PNone)])].

(** A client that answers by URL, and a parser that knows all the sample
    documents. *)
Definition scripted_libraries (answers : string -> outcome response) : Libraries :=
  {| http_get := answers;
     xmltodict_parse := parse_table (sample_documents ++ more_documents);
     repr := sample_repr;
     json_dumps := fun _ => "{...}" |}.

Definition always (status : Z) (body : string) : string -> outcome response :=
  fun _ => Returns {| status_code := status; text := body |}.

Definition unreachable : string -> outcome response :=
  fun _ => Raises (Exn TransportError "All connection attempts failed").

(** The XML fetch is answered 200 with [body], the flat-file fetch of
    JQ814272 with [flat]. *)
Definition flat_file_answer (body : string) (flat : outcome response)
  : string -> outcome response :=
  fun url =>
    if String.eqb url (get_sequence_record.flat_file_url jq814272) then flat
    else Returns {| status_code := 200; text := body |}.

Definition two_messages : string :=
  "<eSearchResult><Count>0</Count><WarningList><OutputMessage>No items found.</OutputMessage><OutputMessage>Check spelling.</OutputMessage></WarningList></eSearchResult>".

Section MoreSearchRuns.
Import find_sequence_records.

Definition zzzz : Parameters := {| search_terms := "zzzz" |}.

Definition zzzz_results : SearchResults :=
  {| count := 0; page := 0; page_size := 0; sequence_ids := [];
     errors := ["Phrase not found: zzzz"]; warnings := ["No items found."] |}.

(** A search without matches: the no-match line, NCBI's error, NCBI's
    warning. *)
Lemma search_success_log_witness :
  logs (fst (run (scripted_libraries (always 200 (phrase_document "zzzz")))
               sample_model zzzz))
  = ["Sending GET request to https://eutils.ncbi.nlm.nih.gov/entrez/eutils/esearch.fcgi?db=nuccore&term=zzzz";
     "No matching records found in the NCBI Nucleotide database.";
     "NCBI reported: Phrase not found: zzzz";
     "Note: No items found."].
Proof.
  exact (proj1 (search_success_log
                  (scripted_libraries (always 200 (phrase_document "zzzz")))
                  sample_model zzzz
                  {| status_code := 200; text := phrase_document "zzzz" |}
                  zzzz_results eq_refl eq_refl eq_refl)).
Defined.

Lemma normalizer_result_shape_witness :
  sequence_ids zzzz_results = []
  /\ (errors zzzz_results = []
      \/ exists phrase, errors zzzz_results = ["Phrase not found: " ++ phrase])
  /\ List.length (warnings zzzz_results) <= 1.
Proof.
  exact (normalizer_result_shape (scripted_libraries (always 200 "")) sample_model
           (phrase_document "zzzz") zzzz_results eq_refl).
Defined.

Lemma search_replies_iff_errors_witness :
  replies (fst (run (scripted_libraries (always 200 (phrase_document "zzzz")))
                  sample_model zzzz))
  = [advisory].
Proof.
  exact (search_replies_iff_errors
           (scripted_libraries (always 200 (phrase_document "zzzz")))
           sample_model zzzz
           {| status_code := 200; text := phrase_document "zzzz" |}
           zzzz_results eq_refl eq_refl eq_refl).
Defined.

Lemma normalizer_output_message_witness :
  _parse_search_results (scripted_libraries (always 200 "")) sample_model
    (phrase_document "zzzz") = Returns zzzz_results.
Proof.
  destruct (normalizer_output_message (scripted_libraries (always 200 "")) sample_model
              (phrase_document "zzzz") (phrase_parsed "zzzz")
              [("Count", PStr "0"); ("RetMax", PStr "0"); ("RetStart", PStr "0");
               ("ErrorList", PDict [("PhraseNotFound", PStr "zzzz")]);
               ("WarningList", PDict [("OutputMessage", PStr "No items found.")])]
              [("OutputMessage", PStr "No items found.")] "No items found."
              eq_refl eq_refl eq_refl eq_refl ltac:(discriminate))
    as [_ Hreturns].
  exact (Hreturns ["Phrase not found: zzzz"] 0%Z 0%Z 0%Z
           eq_refl eq_refl eq_refl eq_refl).
Defined.

(** Two [OutputMessage] elements: validation fails, the error is logged,
    no artifact. *)
Lemma search_rejects_non_text_warning_witness :
  run (scripted_libraries (always 200 two_messages)) sample_model zzzz
  = ([BeginProcess "Searching the NCBI Nucleotide database";
      Log "Sending GET request to https://eutils.ncbi.nlm.nih.gov/entrez/eutils/esearch.fcgi?db=nuccore&term=zzzz";
      HttpGet "https://eutils.ncbi.nlm.nih.gov/entrez/eutils/esearch.fcgi?db=nuccore&term=zzzz";
      Log "1 validation error for SearchResults"],
     Returns tt).
Proof.
  exact (proj1 (proj2
    (search_rejects_non_text_warning
       (scripted_libraries (always 200 two_messages)) sample_model zzzz
       {| status_code := 200; text := two_messages |}
       [("eSearchResult",
         PDict [("Count", PStr "0");
                ("WarningList",
                 PDict [("OutputMessage",
                         PList [PStr "No items found."; PStr "Check spelling."])])])]
       [("Count", PStr "0");
        ("WarningList",
         PDict [("OutputMessage",
                 PList [PStr "No items found."; PStr "Check spelling."])])]
       [("OutputMessage", PList [PStr "No items found."; PStr "Check spelling."])]
       (PList [PStr "No items found."; PStr "Check spelling."])
       [] 0%Z 0%Z 0%Z
       eq_refl eq_refl eq_refl eq_refl eq_refl eq_refl eq_refl
       ltac:(intros; discriminate) eq_refl eq_refl eq_refl eq_refl))).
Defined.

(** A root that holds text: [AttributeError] out of [run]. *)
Lemma search_crashes_on_text_root_witness :
  run (scripted_libraries (always 200 "<eSearchResult>oops</eSearchResult>"))
    sample_model zzzz
  = (request_events zzzz,
     Raises (Exn AttributeError "'str' object has no attribute 'get'")).
Proof.
  exact (search_crashes_on_text_root
           (scripted_libraries (always 200 "<eSearchResult>oops</eSearchResult>"))
           sample_model zzzz
           {| status_code := 200; text := "<eSearchResult>oops</eSearchResult>" |}
           [("eSearchResult", PStr "oops")] (PStr "oops")
           eq_refl eq_refl eq_refl eq_refl eq_refl ltac:(intros; discriminate)).
Defined.

(** [Count] is "abc": the [ValueError] of [int] is logged. *)
Lemma search_logs_bad_count_witness :
  exists message,
    py_int (scripted_libraries (always 200 "")) (PStr "abc")
    = Raises (Exn ValueError message)
    /\ run (scripted_libraries
             (always 200 "<eSearchResult><Count>abc</Count></eSearchResult>"))
         sample_model zzzz
       = ((request_events zzzz ++ [Log message])%list, Returns tt)
    /\ artifacts
         (fst (run (scripted_libraries
                      (always 200 "<eSearchResult><Count>abc</Count></eSearchResult>"))
                 sample_model zzzz)) = [].
Proof.
  exact (search_logs_bad_count
           (scripted_libraries
              (always 200 "<eSearchResult><Count>abc</Count></eSearchResult>"))
           sample_model zzzz
           {| status_code := 200;
              text := "<eSearchResult><Count>abc</Count></eSearchResult>" |}
           [("eSearchResult", PDict [("Count", PStr "abc")])]
           [("Count", PStr "abc")] [] [] "abc"
           eq_refl eq_refl eq_refl eq_refl eq_refl eq_refl eq_refl eq_refl).
Defined.

(** An empty [Count] element: [TypeError] out of [run]. *)
Lemma search_crashes_on_empty_count_witness :
  run (scripted_libraries (always 200 "<eSearchResult><Count/></eSearchResult>"))
    sample_model zzzz
  = (request_events zzzz,
     Raises (Exn TypeError
               "int() argument must be a string, a bytes-like object or a real number, not 'NoneType'")).
Proof.
  exact (search_crashes_on_empty_count
           (scripted_libraries (always 200 "<eSearchResult><Count/></eSearchResult>"))
           sample_model zzzz
           {| status_code := 200; text := "<eSearchResult><Count/></eSearchResult>" |}
           [("eSearchResult", PDict [("Count", PNone)])]
           [("Count", PNone)] [] [] PNone
           eq_refl eq_refl eq_refl eq_refl eq_refl eq_refl eq_refl
           ltac:(intros; discriminate)).
Defined.

(** An [ErrorList] that holds a [FieldNotFound] only. *)
Lemma normalizer_ignores_other_errors_witness :
  errors_of (scripted_libraries (always 200 ""))
    (PDict [("Count", PStr "0");
            ("ErrorList", PDict [("FieldNotFound", PStr "zzzz")])])
  = Returns [].
Proof.
  exact (normalizer_ignores_other_errors (scripted_libraries (always 200 ""))
           [("Count", PStr "0"); ("ErrorList", PDict [("FieldNotFound", PStr "zzzz")])]
           [("FieldNotFound", PStr "zzzz")] eq_refl eq_refl).
Defined.

Lemma search_transport_exception_witness :
  run (scripted_libraries unreachable) sample_model zzzz
  = (request_events zzzz,
     Raises (Exn TransportError "All connection attempts failed")).
Proof.
  exact (proj1 (search_transport_exception (scripted_libraries unreachable)
                  sample_model zzzz
                  (Exn TransportError "All connection attempts failed") eq_refl)).
Defined.

End MoreSearchRuns.

Section MoreFetchRuns.
Import get_sequence_record.

Definition jq814272_parsed : dict :=
  [("GBSet", PDict [("GBSeq", PDict [("GBSeq_primary-accession", PStr "JQ814272")])])].

(** The flat-file fetch answered 500 after a good XML fetch. *)
Lemma fetch_flat_file_failure_witness :
  map mimetype
    (artifacts
       (fst (run (scripted_libraries
                    (flat_file_answer record_with_accession
                       (Returns {| status_code := 500; text := "" |})))
               jq814272)))
  = ["application/json"]
  /\ replies
       (fst (run (scripted_libraries
                    (flat_file_answer record_with_accession
                       (Returns {| status_code := 500; text := "" |})))
               jq814272))
     = ["Failed to retrieve flat file record"].
Proof.
  destruct (fetch_flat_file_failure
              (scripted_libraries
                 (flat_file_answer record_with_accession
                    (Returns {| status_code := 500; text := "" |})))
              jq814272 {| status_code := 200; text := record_with_accession |}
              jq814272_parsed PNone (PStr "JQ814272") PNone
              {| status_code := 500; text := "" |}
              eq_refl eq_refl eq_refl eq_refl eq_refl eq_refl)
    as [_ [Hart [Hrep _]]].
  split; assumption.
Defined.

(** The XML response cut short: the [ExpatError] leaves [run]. *)
Lemma fetch_parser_exception_witness :
  run (scripted_libraries (always 200 "<eSearchResult><Count>1")) jq814272
  = ((xml_request_events jq814272 ++ [Log "Converting XML record to JSON"])%list,
     Raises (Exn ExpatError "no element found: line 1, column 23")).
Proof.
  exact (proj1 (fetch_parser_exception
                  (scripted_libraries (always 200 "<eSearchResult><Count>1")) jq814272
                  {| status_code := 200; text := "<eSearchResult><Count>1" |}
                  (Exn ExpatError "no element found: line 1, column 23")
                  eq_refl eq_refl eq_refl)).
Defined.

(** An empty [GBSet]: [AttributeError] out of [run]. *)
Lemma fetch_crashes_without_mapping_witness :
  run (scripted_libraries (always 200 "<GBSet/>")) jq814272
  = ((xml_request_events jq814272 ++ [Log "Converting XML record to JSON"])%list,
     Raises (Exn AttributeError "'NoneType' object has no attribute 'get'")).
Proof.
  exact (proj1 (fetch_crashes_without_mapping
                  (scripted_libraries (always 200 "<GBSet/>")) jq814272
                  {| status_code := 200; text := "<GBSet/>" |}
                  [("GBSet", PNone)] PNone
                  eq_refl eq_refl eq_refl (or_introl eq_refl)
                  ltac:(intros; discriminate))).
Defined.

Lemma fetch_artifacts_share_metadata_witness :
  exists json_artifact flat_artifact,
    artifacts (fst (run (scripted_libraries (always 200 record_with_accession))
                      jq814272))
    = [json_artifact; flat_artifact]
    /\ meta_get "derived_from" (metadata json_artifact)
       = Some (MVal (PStr "https://eutils.ncbi.nlm.nih.gov/entrez/eutils/efetch.fcgi?db=nuccore&id=JQ814272&rettype=gb&retmode=xml"))
    /\ meta_get "derived_from" (metadata flat_artifact) = None
    /\ forall key, key <> "derived_from" ->
         meta_get key (metadata json_artifact) = meta_get key (metadata flat_artifact).
Proof.
  exact (fetch_artifacts_share_metadata
           (scripted_libraries (always 200 record_with_accession)) jq814272
           {| status_code := 200; text := record_with_accession |}
           jq814272_parsed PNone (PStr "JQ814272") PNone
           {| status_code := 200; text := record_with_accession |}
           eq_refl eq_refl eq_refl eq_refl eq_refl eq_refl).
Defined.

Lemma fetch_metadata_keys_witness :
  exists json_artifact flat_artifact,
    artifacts (fst (run (scripted_libraries (always 200 record_with_accession))
                      jq814272))
    = [json_artifact; flat_artifact]
    /\ forall a, a = json_artifact \/ a = flat_artifact ->
         meta_get "data_source" (metadata a) = Some (MVal (PStr "Nucleotide"))
         /\ meta_get "primary_accession" (metadata a) = Some (MVal (PStr "JQ814272"))
         /\ meta_get "link_to_view_record_on_ncbi_portal" (metadata a)
            = Some (MVal (PStr "https://www.ncbi.nlm.nih.gov/nuccore/JQ814272"))
         /\ meta_get "accession_version" (metadata a) = None.
Proof.
  exact (fetch_metadata_keys
           (scripted_libraries (always 200 record_with_accession)) jq814272
           {| status_code := 200; text := record_with_accession |}
           jq814272_parsed PNone (PStr "JQ814272") PNone
           {| status_code := 200; text := record_with_accession |}
           eq_refl eq_refl eq_refl eq_refl eq_refl eq_refl).
Defined.

End MoreFetchRuns.

Lemma agent_unknown_entrypoint_witness :
  agent.run (scripted_libraries unreachable) sample_model "Blah blah blah"
    "hello_world" agent.NoParams
  = ([], Raises (Exn ValueError "")).
Proof.
  exact (proj1 (agent_unknown_entrypoint (scripted_libraries unreachable) sample_model
                  "Blah blah blah" "hello_world" agent.NoParams
                  ltac:(discriminate) ltac:(discriminate))).
Defined.

Section ElementTreeRuns.
Import ElementTree.
Import find_sequence_records.

(** [<a>hello<b>x</b></a>] *)
Definition hello_tree : Element := Elem "a" (Some "hello") [Elem "b" (Some "x") []].

Lemma get_property_value_needs_children_witness :
  exists node rest,
    iter "a" hello_tree = node :: rest
    /\ text node = Some "hello"
    /\ children node <> []
    /\ ("a" = "*" \/ tag node = "a").
Proof.
  exact (get_property_value_needs_children hello_tree "a" "hello" eq_refl).
Defined.

(** The text of [b], which has no children, is listed but not returned. *)
Example leaf_text_is_not_returned :
  _get_property_value_by_tag hello_tree "b" = None
  /\ _list_property_values_by_tag hello_tree "b" = [Some "x"].
Proof. split; reflexivity. Qed.

End ElementTreeRuns.

(** ** The retry helpers *)

Section UtilProperties.
Import util.

(** An error whose [ctx], when it has one, is a dict. *)
Definition ctx_ok (error : list (string * value)) : Prop :=
  match lookup "ctx" error with
  | Some (VDict _) | None => True
  | Some _ => False
  end.

(** An error marked terminal: its [ctx] has a true [terminal]. *)
Definition is_terminal (error : list (string * value)) : bool :=
  match lookup "ctx" error with
  | Some (VDict ctx) =>
      match lookup "terminal" ctx with
      | Some v => truthy v
      | None => false
      end
  | _ => false
  end.

Lemma terminal_step error errors :
  ctx_ok error ->
  first_terminal (error :: errors)
  = if is_terminal error then Returns (Some error) else first_terminal errors.
Proof.
  unfold ctx_ok, is_terminal. cbn [first_terminal get_or obind].
  destruct (lookup "ctx" error) as [[|b|s|ctx]|]; try contradiction; intros _.
  - cbn [get_or obind]. destruct (lookup "terminal" ctx); reflexivity.
  - reflexivity.
Qed.

Lemma first_terminal_find errors :
  Forall ctx_ok errors -> first_terminal errors = Returns (find is_terminal errors).
Proof.
  intros Hok. induction Hok as [|error errors Herror _ IH]; [reflexivity|].
  rewrite terminal_step by assumption. cbn [find].
  destruct (is_terminal error); [reflexivity | exact IH].
Qed.

(** A dict with a [ctx] key is not empty: the error returned passes the
    truth test of the caller. *)
Lemma found_is_truthy errors :
  match find is_terminal errors with
  | Some error => truthy (VDict error)
  | None => false
  end = existsb is_terminal errors.
Proof.
  induction errors as [|error errors IH]; [reflexivity|]. cbn [find existsb].
  destruct (is_terminal error) eqn:Hterminal; [|exact IH].
  unfold is_terminal in Hterminal.
  destruct error as [|kv error]; [discriminate | reflexivity].
Qed.

(** X26: for a [ValidationError] whose errors have a dict as [ctx] (or
    none), [_get_terminal_validation_error] returns the first error, in
    the order of [e.errors()], whose [ctx] has a true [terminal], and
    [None] when there is no such error; for any other exception it
    returns [None]. *)
Theorem terminal_error_is_first errors :
  Forall ctx_ok errors ->
  _get_terminal_validation_error (ValidationError_with errors)
  = Returns (find is_terminal errors)
  /\ forall e, _get_terminal_validation_error (Other e) = Returns None.
Proof.
  intros Hok. split; [|reflexivity].
  cbn [_get_terminal_validation_error]. apply first_terminal_find. exact Hok.
Qed.

(** X27: the stop condition answers true exactly when some error of the
    [ValidationError] is terminal or the attempt number has reached
    [max_attempts]; after any other exception, or none, only the attempt
    number decides. *)
Theorem stop_condition self errors attempts :
  Forall ctx_ok errors ->
  __call__ self {| outcome_exception := Some (ValidationError_with errors);
                   attempt_number := attempts |}
  = Returns (existsb is_terminal errors || (max_attempts self <=? attempts)%Z)
  /\ (forall e,
        __call__ self {| outcome_exception := Some (Other e);
                         attempt_number := attempts |}
        = Returns (max_attempts self <=? attempts)%Z)
  /\ __call__ self {| outcome_exception := None; attempt_number := attempts |}
     = Returns (max_attempts self <=? attempts)%Z.
Proof.
  intros Hok. split; [|split; reflexivity].
  unfold __call__. cbn [outcome_exception attempt_number _get_terminal_validation_error].
  rewrite (first_terminal_find errors Hok). cbn [obind].
  rewrite found_is_truthy. destruct (existsb is_terminal errors); reflexivity.
Qed.

(** An error list with a terminal error in second place. *)
Definition sample_errors : list (list (string * value)) :=
  [[("type", VStr "missing"); ("msg", VStr "Field required")];
   [("type", VStr "value_error"); ("msg", VStr "Value error, unknown species");
    ("ctx", VDict [("terminal", VBool true)])];
   [("type", VStr "value_error"); ("msg", VStr "Value error, try again");
    ("ctx", VDict [("terminal", VBool true)])]].

Lemma sample_errors_ok : Forall ctx_ok sample_errors.
Proof. repeat constructor. Qed.

Lemma terminal_error_is_first_witness :
  _get_terminal_validation_error (ValidationError_with sample_errors)
  = Returns (Some [("type", VStr "value_error");
                   ("msg", VStr "Value error, unknown species");
                   ("ctx", VDict [("terminal", VBool true)])]).
Proof. exact (proj1 (terminal_error_is_first sample_errors sample_errors_ok)). Defined.

(** First attempt of five, a terminal error: stop. *)
Lemma stop_condition_witness :
  __call__ {| max_attempts := 5 |}
    {| outcome_exception := Some (ValidationError_with sample_errors);
       attempt_number := 1 |}
  = Returns true.
Proof.
  exact (proj1 (stop_condition {| max_attempts := 5 |} sample_errors 1%Z
                  sample_errors_ok)).
Defined.
End UtilProperties.
